(** * Order confirmation: optimistic stock decrement and idempotency keys

    A shallow embedding of [app/repos/order_repo.py] and
    [app/services/order_service.py], together with the columns of
    [app/models/book.py] and [app/models/order.py] that these two files read
    or write.

    The SQLAlchemy [Session] is modelled as a pair of table sets: the rows
    that are committed and the rows the open transaction sees.  Statements
    act on the second component, [db.commit()] copies it onto the first and
    [db.rollback()] restores it from the first.  One transaction runs at a
    time: interleavings of several sessions are outside this model.

    [Integer] columns are 32 bits wide: a statement that would store a value
    outside that range raises [DataError], as PostgreSQL does.  For
    [confirm_order] the commits are logged, so that what is committed
    together can be told from what is committed one after the other. *)

From stdpp Require Import gmap strings list fin_maps pretty.
From Stdlib Require Import ZArith.

Local Open Scope string_scope.
Local Open Scope Z_scope.
Local Open Scope list_scope.

(** ** Values *)

(** [uuid.UUID], by its 128-bit integer value. *)
Definition uuid := N.
Bind Scope N_scope with uuid.

(** [datetime.datetime] of a [DateTime(timezone=True)] column: the instant in
    microseconds since the epoch. *)
Definition datetime := Z.

(** [JSONValue] of both source files; a [dict] keeps its insertion order. *)
#[warnings="-register-all"]
Inductive JSONValue :=
| JNull
| JBool (b : bool)
| JInt (z : Z)
| JStr (s : string)
| JList (l : list JSONValue)
| JDict (d : list (string * JSONValue)).

Definition JSONDict := list (string * JSONValue).

(** ** Rows (models) *)

(** [Book]: the two columns the order code touches.  [title], [author_id],
    [price] and [published_at] are neither read nor assigned by it. *)
Record Book := mkBook {
  book_stock : Z;
  book_version : Z
}.

Record Order := mkOrder {
  order_status : string;
  order_created_at : datetime
}.

Record OrderItem := mkOrderItem {
  item_order_id : uuid;
  item_product_id : uuid;
  item_qty : Z
}.

(** [IdempotencyKey]; its [created_at] is assigned by the server and never
    read, so it is left out. *)
Record IdempotencyKey := mkIdempotencyKey {
  idem_id : string;
  idem_order_id : uuid;
  idem_response : JSONDict
}.

(** ** Request and response schemas (app/schemas/order.py) *)

Record OrderItemCreate := mkOrderItemCreate {
  create_product_id : uuid;
  create_qty : Z
}.

Record OrderCreate := mkOrderCreate {
  create_items : list OrderItemCreate
}.

Record OrderItemRead := mkOrderItemRead {
  read_product_id : uuid;
  read_qty : Z
}.

Record OrderRead := mkOrderRead {
  read_id : uuid;
  read_status : string;
  read_created_at : datetime;
  read_items : list OrderItemRead
}.

(** ** Tables and session *)

(** [books] and [orders] are keyed by their primary key [id].  [order_items]
    and [idempotency_keys] are kept as row lists, so that their primary keys
    are properties to be stated and preserved, not built in. *)
Record Tables := mkTables {
  books : gmap uuid Book;
  orders : gmap uuid Order;
  order_items : list OrderItem;
  idempotency_keys : list IdempotencyKey
}.

Record Session := mkSession {
  committed : Tables;
  pending : Tables
}.

(** A session as [SessionLocal()] hands it out: nothing pending. *)
Definition begin (t : Tables) : Session :=
  {| committed := t; pending := t |}.

Definition set_books (bs : gmap uuid Book) (t : Tables) : Tables :=
  {| books := bs; orders := orders t;
     order_items := order_items t; idempotency_keys := idempotency_keys t |}.

Definition set_orders (os : gmap uuid Order) (t : Tables) : Tables :=
  {| books := books t; orders := os;
     order_items := order_items t; idempotency_keys := idempotency_keys t |}.

Definition set_idempotency_keys (ks : list IdempotencyKey) (t : Tables) : Tables :=
  {| books := books t; orders := orders t;
     order_items := order_items t; idempotency_keys := ks |}.

(** ** Constraints declared by the models *)

(** [order_items]: primary key [(order_id, product_id)]. *)
Definition order_items_pk (t : Tables) : Prop :=
  NoDup ((λ it, (item_order_id it, item_product_id it)) <$> order_items t).

(** [idempotency_keys]: primary key [id]. *)
Definition idempotency_keys_pk (t : Tables) : Prop :=
  NoDup (idem_id <$> idempotency_keys t).

(** [books_stock_nonneg]. *)
Definition books_stock_nonneg (t : Tables) : Prop :=
  ∀ book_id b, books t !! book_id = Some b → 0 ≤ book_stock b.

(** ** Exceptions and the session monad *)

(** [fastapi.HTTPException(status_code, detail)]. *)
Record HTTPException := mkHTTPException {
  status_code : Z;
  detail : JSONValue
}.

Definition HTTP_404_NOT_FOUND : Z := 404.
Definition HTTP_409_CONFLICT : Z := 409.
Definition HTTP_400_BAD_REQUEST : Z := 400.
Definition HTTP_500_INTERNAL_SERVER_ERROR : Z := 500.

(** The two [sqlalchemy.exc.DBAPIError] that the statements of the order
    code can raise: [IntegrityError] for a violated constraint (primary key,
    foreign key, CHECK) and [DataError] for a value that does not fit its
    column ("integer out of range"). *)
Inductive DBAPIError := IntegrityError | DataError.

(** [Integer] columns ([books.stock], [books.version], [order_items.qty])
    are PostgreSQL [integer]: 32 bits, signed.  A statement that computes or
    stores a value outside this range raises [DataError]. *)
Definition int4_min : Z := -2147483648.
Definition int4_max : Z := 2147483647.

Definition in_int4 (z : Z) : bool := (int4_min <=? z) && (z <=? int4_max).

Inductive outcome (A : Type) :=
| Return (a : A)
| Raise (e : HTTPException)
| Fault (x : DBAPIError).
Arguments Return {A} a.
Arguments Raise {A} e.
Arguments Fault {A} x.

(** A computation over [db: Session]; a raised exception leaves the session
    as it was at the [raise]. *)
Definition M (A : Type) : Type := Session → outcome A * Session.

Definition ret {A} (a : A) : M A := λ db, (Return a, db).

Definition raise {A} (e : HTTPException) : M A := λ db, (Raise e, db).

Definition fault {A} (x : DBAPIError) : M A := λ db, (Fault x, db).

Definition bind {A B} (m : M A) (k : A → M B) : M B :=
  λ db, match m db with
        | (Return a, db') => k a db'
        | (Raise e, db') => (Raise e, db')
        | (Fault x, db') => (Fault x, db')
        end.

Notation "'let*' x ':=' m 'in' k" := (bind m (λ x, k))
  (at level 10, x pattern, m at level 100, k at level 200).

(** [try: body] with [except] clauses for database errors only: [handler]
    is what the clauses do with each error, [fault] for an error no clause
    names.  An [HTTPException] raised by the body is not touched. *)
Definition try_except {A} (body : M A) (handler : DBAPIError → M A) : M A :=
  λ db, match body db with
        | (Fault x, db') => handler x db'
        | r => r
        end.

(** [db.execute(select ...)]. *)
Definition execute_select {A} (q : Tables → A) : M A :=
  λ db, (Return (q (pending db)), db).

(** [db.execute(update/insert ...)]: runs inside the open transaction. *)
Definition execute_dml {A} (stmt : Tables → Tables * A) : M A :=
  λ db, let '(t, a) := stmt (pending db) in
        (Return a, {| committed := committed db; pending := t |}).

(** [db.execute(...)] of a statement the database may refuse: the error is
    raised and the statement has written nothing.  (The transaction is then
    aborted until it is rolled back; every caller in this file rolls back,
    or stops, before it runs another statement.) *)
Definition execute_checked {A} (stmt : Tables → DBAPIError + Tables * A)
  : M A :=
  λ db, match stmt (pending db) with
        | inl x => (Fault x, db)
        | inr (t, a) =>
            (Return a, {| committed := committed db; pending := t |})
        end.

Definition commit : M unit :=
  λ db, (Return tt, {| committed := pending db; pending := pending db |}).

Definition rollback : M unit :=
  λ db, (Return tt, {| committed := committed db; pending := committed db |}).

(** ** Computations with a commit log *)

(** The same computations, with the list of what each [db.commit()] made
    durable, oldest first.  The service functions whose specification speaks
    of what is committed together are written in this form. *)
Definition T (A : Type) : Type := Session → outcome A * Session * list Tables.

Definition lift {A} (m : M A) : T A := λ db, (m db, []).

Definition bind_T {A B} (m : T A) (k : A → T B) : T B :=
  λ db, match m db with
        | (Return a, db', log) =>
            let '(r, log') := k a db' in (r, log ++ log')
        | (Raise e, db', log) => (Raise e, db', log)
        | (Fault x, db', log) => (Fault x, db', log)
        end.

Notation "'let+' x ':=' m 'in' k" := (bind_T m (λ x, k))
  (at level 10, x pattern, m at level 100, k at level 200).

(** [db.commit()], logged. *)
Definition commit_T : T unit := λ db, (commit db, [pending db]).

Definition try_except_T {A} (body : T A) (handler : DBAPIError → T A) : T A :=
  λ db, match body db with
        | (Fault x, db', log) =>
            let '(r, log') := handler x db' in (r, log ++ log')
        | r => r
        end.

(** What the computation does to the session, without the log. *)
Definition erase {A} (m : T A) : M A := λ db, (m db).1.

(** Python truthiness of [idempotency_key: str | None]: [None] and the empty
    string are both false. *)
Definition truthy (idempotency_key : option string) : option string :=
  match idempotency_key with
  | Some key => if String.eqb key "" then None else Some key
  | None => None
  end.

(** ** app/repos/order_repo.py *)

Module OrderRepository.

(** The INSERT of the new [Order(status="DRAFT")] row, as [db.flush()] sends
    it.  [id] is what [uuid.uuid4] drew and [created_at] what the server's
    [now()] gave: both are arguments here.  A duplicate [id] is an
    [IntegrityError]. *)
Definition insert_order (id : uuid) (created_at : datetime) (t : Tables)
  : DBAPIError + Tables :=
  match orders t !! id with
  | Some _ => inl IntegrityError
  | None => inr (set_orders (<[id := mkOrder "DRAFT" created_at]> (orders t)) t)
  end.

(** The INSERT of one [OrderItem] row.  A [qty] outside the 32-bit range of
    its column is refused first, with [DataError]: the value cannot be
    stored at all.  Then come the constraints of the table, each an
    [IntegrityError]: primary key [(order_id, product_id)], both foreign
    keys and [order_items_qty_positive]. *)
Definition insert_order_item (row : OrderItem) (t : Tables)
  : DBAPIError + Tables :=
  if negb (in_int4 (item_qty row)) then inl DataError
  else if bool_decide ((item_order_id row, item_product_id row) ∈
                         (λ it, (item_order_id it, item_product_id it))
                           <$> order_items t)
  then inl IntegrityError
  else if bool_decide (is_Some (orders t !! item_order_id row))
          && bool_decide (is_Some (books t !! item_product_id row))
          && (0 <? item_qty row)
  then inr {| books := books t; orders := orders t;
              order_items := order_items t ++ [row];
              idempotency_keys := idempotency_keys t |}
  else inl IntegrityError.

(** The [for it in data.items: db.add(OrderItem(...))] loop, flushed in the
    order of the [add] calls, one row after the other: the first row that is
    refused decides the error. *)
Fixpoint insert_order_items (order_id : uuid) (items : list OrderItemCreate)
    (t : Tables) : DBAPIError + Tables :=
  match items with
  | [] => inr t
  | it :: items' =>
      match insert_order_item
              (mkOrderItem order_id (create_product_id it) (create_qty it)) t with
      | inr t' => insert_order_items order_id items' t'
      | inl x => inl x
      end
  end.

(** [create_draft]: a database error is raised by [db.flush()] or by the
    flush inside [db.commit()]; a failed flush rolls the transaction back.
    On success the rows are committed and the refreshed order is returned
    with its id. *)
Definition create_draft (id : uuid) (created_at : datetime) (data : OrderCreate)
  : M (uuid * Order) :=
  λ db,
    match insert_order id created_at (pending db) with
    | inl x => (Fault x, {| committed := committed db; pending := committed db |})
    | inr t1 =>
        match insert_order_items id (create_items data) t1 with
        | inl x =>
            (Fault x, {| committed := committed db; pending := committed db |})
        | inr t2 =>
            (Return (id, mkOrder "DRAFT" created_at),
             {| committed := t2; pending := t2 |})
        end
    end.

Definition get (order_id : uuid) : M (option Order) :=
  execute_select (λ t, orders t !! order_id).

Definition list_items (order_id : uuid) : M (list OrderItem) :=
  execute_select
    (λ t, filter (λ it, item_order_id it = order_id) (order_items t)).

(** [update(Order).where(Order.id == order_id).values(status=new_status)] *)
Definition set_status (order_id : uuid) (new_status : string) : M unit :=
  execute_dml
    (λ t, (set_orders
             (alter (λ o, {| order_status := new_status;
                             order_created_at := order_created_at o |})
                    order_id (orders t)) t,
           tt)).

(** [select(Book.version, Book.stock).where(Book.id == book_id)] *)
Definition select_version_stock (book_id : uuid) (t : Tables) : option (Z * Z) :=
  (λ b, (book_version b, book_stock b)) <$> books t !! book_id.

(** The conditional UPDATE of [try_decrement_book_optimistic], with its
    [rowcount].  The new values [stock - qty] and [version + 1] are computed
    for the row the WHERE clause matches; when one of them is outside the
    32-bit range of its column the statement raises [DataError] ("integer
    out of range") and writes nothing.  A row that does not match is not
    evaluated. *)
Definition update_book (book_id : uuid) (version qty : Z) (t : Tables)
  : DBAPIError + Tables * Z :=
  match books t !! book_id with
  | Some b =>
      if (book_version b =? version) && (qty <=? book_stock b) then
        if in_int4 (book_stock b - qty) && in_int4 (book_version b + 1) then
          inr (set_books
                 (<[book_id := {| book_stock := book_stock b - qty;
                                  book_version := book_version b + 1 |}]>
                    (books t)) t,
               1)
        else inl DataError
      else inr (t, 0)
  | None => inr (t, 0)
  end.

Definition try_decrement_book_optimistic (book_id : uuid) (qty : Z)
  : M (bool * Z) :=
  let* row := execute_select (select_version_stock book_id) in
  match row with
  | None => ret (false, 0)
  | Some (version, stock) =>
      if stock <? qty then ret (false, stock)
      else
        let* rowcount := execute_checked (update_book book_id version qty) in
        ret (rowcount =? 1, stock)
  end.

(** [select(IdempotencyKey).where(IdempotencyKey.id == key)], at most one
    row by the primary key. *)
Definition select_idempotency (key : string) (t : Tables)
  : option IdempotencyKey :=
  List.find (λ r, String.eqb (idem_id r) key) (idempotency_keys t).

Definition get_idempotency (key : string) : M (option IdempotencyKey) :=
  execute_select (select_idempotency key).

(** [insert(...).on_conflict_do_nothing(index_elements=["id"])] *)
Definition insert_idempotency (row : IdempotencyKey) (t : Tables) : Tables :=
  if existsb (λ r, String.eqb (idem_id r) (idem_id row)) (idempotency_keys t)
  then t
  else set_idempotency_keys (idempotency_keys t ++ [row]) t.

Definition save_idempotency (key : string) (order_id : uuid)
    (response : JSONDict) : M unit :=
  execute_dml
    (λ t, (insert_idempotency
             {| idem_id := key; idem_order_id := order_id;
                idem_response := response |} t,
           tt)).

End OrderRepository.

(** ** app/services/order_service.py *)

Module OrderService.

(** [create_order]; the two leading arguments are the id and the creation
    time the database assigns to the new order.  Only [IntegrityError] has an
    [except] clause: a [DataError] leaves the function as it is. *)
Definition create_order (id : uuid) (created_at : datetime) (data : OrderCreate)
  : M OrderRead :=
  try_except
    (let* (order_id, order) := OrderRepository.create_draft id created_at data in
     let* items := OrderRepository.list_items order_id in
     ret {| read_id := order_id;
            read_status := order_status order;
            read_created_at := order_created_at order;
            read_items :=
              (λ it, mkOrderItemRead (item_product_id it) (item_qty it))
                <$> items |})
    (λ x, match x with
          | IntegrityError =>
              let* _ := rollback in
              raise {| status_code := HTTP_400_BAD_REQUEST;
                       detail := JStr "Referenced resource not found" |}
          | DataError => fault DataError
          end).

Section confirm_order.

(** [str(uuid)] and [datetime.isoformat()] belong to the Python library;
    the service is read for any rendering of the two. *)
Variable str : uuid → string.
Variable isoformat : datetime → string.

Definition shortage (it : OrderItem) (available : Z) : JSONValue :=
  JDict [("product_id", JStr (str (item_product_id it)));
         ("requested", JInt (item_qty it));
         ("available", JInt available)].

(** The [for it in items] loop, with the [shortages] list it appends to.  An
    error raised by a call ends the loop there. *)
Fixpoint decrement_items (items : list OrderItem)
    (shortages : list JSONValue) : M (list JSONValue) :=
  match items with
  | [] => ret shortages
  | it :: items' =>
      let* (ok, available) :=
        OrderRepository.try_decrement_book_optimistic
          (item_product_id it) (item_qty it) in
      decrement_items items'
        (if ok : bool then shortages
         else shortages ++ [shortage it available])
  end.

Definition response_of (order_id : uuid) (status : string)
    (created_at : datetime) : JSONDict :=
  [("id", JStr (str order_id));
   ("status", JStr status);
   ("created_at", JStr (isoformat created_at))].

(** [if idempotency_key: save_idempotency(...); db.commit()] *)
Definition remember (idempotency_key : option string) (order_id : uuid)
    (response : JSONDict) : T unit :=
  match truthy idempotency_key with
  | Some key =>
      let+ _ := lift (OrderRepository.save_idempotency key order_id response) in
      commit_T
  | None => lift (ret tt)
  end.

(** [confirm_order], with its commit log.  The [try] block holds the loop,
    the 409 and the first commit; [except HTTPException: raise] lets the 409
    through, and the two other clauses turn a database error into a 400 or
    a 500 after a rollback. *)
Definition confirm_order_traced (order_id : uuid)
    (idempotency_key : option string) : T JSONDict :=
  let+ cached :=
    lift match truthy idempotency_key with
         | Some key => OrderRepository.get_idempotency key
         | None => ret None
         end in
  match cached with
  | Some cached => lift (ret (idem_response cached))
  | None =>
      let+ order := lift (OrderRepository.get order_id) in
      match order with
      | None =>
          lift (raise {| status_code := HTTP_404_NOT_FOUND;
                         detail := JStr "order not found" |})
      | Some order =>
          if negb (String.eqb (order_status order) "DRAFT") then
            let response :=
              response_of order_id (order_status order)
                          (order_created_at order) in
            let+ _ := remember idempotency_key order_id response in
            lift (ret response)
          else
            let+ items := lift (OrderRepository.list_items order_id) in
            let+ _ :=
              try_except_T
                (let+ shortages := lift (decrement_items items []) in
                 match shortages with
                 | _ :: _ =>
                     let+ _ := lift rollback in
                     lift (raise {| status_code := HTTP_409_CONFLICT;
                                    detail :=
                                      JDict [("shortages", JList shortages)] |})
                 | [] =>
                     let+ _ :=
                       lift (OrderRepository.set_status order_id "CONFIRMED") in
                     commit_T
                 end)
                (λ x,
                   match x with
                   | IntegrityError =>
                       let+ _ := lift rollback in
                       lift (raise {| status_code := HTTP_400_BAD_REQUEST;
                                      detail :=
                                        JStr "Data integrity violation" |})
                   | DataError =>
                       let+ _ := lift rollback in
                       lift (raise
                               {| status_code := HTTP_500_INTERNAL_SERVER_ERROR;
                                  detail := JStr "confirm failed" |})
                   end) in
            let response :=
              response_of order_id "CONFIRMED" (order_created_at order) in
            let+ _ := remember idempotency_key order_id response in
            lift (ret response)
      end
  end.

(** [confirm_order] as a computation over the session alone. *)
Definition confirm_order (order_id : uuid) (idempotency_key : option string)
  : M JSONDict :=
  erase (confirm_order_traced order_id idempotency_key).

End confirm_order.

End OrderService.

Import OrderRepository OrderService.

(** ** Lines of an order, in the words of the specification *)

(** What the ledger holds for the product of a line; [0] when there is no
    such product. *)
Definition available (t : Tables) (it : OrderItem) : Z :=
  match books t !! item_product_id it with
  | Some b => book_stock b
  | None => 0
  end.

(** A failing line: its product does not exist, or it asks for more than the
    product's stock. *)
Definition short (t : Tables) (it : OrderItem) : bool :=
  match books t !! item_product_id it with
  | Some b => book_stock b <? item_qty it
  | None => true
  end.

(** A line whose UPDATE, if the ledger gets to run it, stays within the
    32-bit range of [books.stock] and [books.version]. *)
Definition fits (t : Tables) (it : OrderItem) : bool :=
  match books t !! item_product_id it with
  | Some b =>
      (book_stock b <? item_qty it) ||
      (in_int4 (book_stock b - item_qty it) && in_int4 (book_version b + 1))
  | None => true
  end.

(** The stock item of a line after one successful decrement. *)
Definition decrement (bs : gmap uuid Book) (it : OrderItem) : gmap uuid Book :=
  alter (λ b, mkBook (book_stock b - item_qty it) (book_version b + 1))
        (item_product_id it) bs.

Definition apply_line (t : Tables) (it : OrderItem) : Tables :=
  if short t it then t else set_books (decrement (books t) it) t.

Definition shortages_of (str : uuid → string) (t : Tables)
    (items : list OrderItem) : list JSONValue :=
  (λ it, shortage str it (available t it)) <$> filter (λ it, short t it) items.

Definition items_of (t : Tables) (order_id : uuid) : list OrderItem :=
  filter (λ it, item_order_id it = order_id) (order_items t).

(** ** Sessions and rows after a call *)

(** The record step 1 of [confirm_order] finds for the key, if any: none
    when the key is absent or empty. *)
Definition cached (idempotency_key : option string) (t : Tables)
  : option IdempotencyKey :=
  match truthy idempotency_key with
  | Some key => select_idempotency key t
  | None => None
  end.

(** The session after [remember]. *)
Definition remembered (idempotency_key : option string) (order_id : uuid)
    (response : JSONDict) (db : Session) : Session :=
  match truthy idempotency_key with
  | Some key =>
      begin (insert_idempotency (mkIdempotencyKey key order_id response)
                                (pending db))
  | None => db
  end.

(** What [remember] commits. *)
Definition remembered_log (idempotency_key : option string) (order_id : uuid)
    (response : JSONDict) (db : Session) : list Tables :=
  match truthy idempotency_key with
  | Some key =>
      [insert_idempotency (mkIdempotencyKey key order_id response)
                          (pending db)]
  | None => []
  end.

Definition with_status (new_status : string) (order_id : uuid) (t : Tables)
  : Tables :=
  set_orders (alter (λ o, mkOrder new_status (order_created_at o))
                    order_id (orders t)) t.

(** The rows after [remember], in a session with nothing pending. *)
Definition remembered_tables (idempotency_key : option string)
    (order_id : uuid) (response : JSONDict) (t : Tables) : Tables :=
  match truthy idempotency_key with
  | Some key =>
      insert_idempotency (mkIdempotencyKey key order_id response) t
  | None => t
  end.

(** How one order row may differ after a call for [order_id]: not at all, or
    from DRAFT to CONFIRMED when it is the order of the call. *)
Definition order_step (order_id oid : uuid) (a b : Order) : Prop :=
  order_created_at b = order_created_at a ∧
  (b = a ∨
   (oid = order_id ∧ order_status a = "DRAFT" ∧ order_status b = "CONFIRMED")).

(** No row is stored under the empty key.  Both calls of [save_idempotency]
    stand under [if idempotency_key:], so no call writes such a row. *)
Definition no_empty_key (t : Tables) : Prop :=
  ∀ r, r ∈ idempotency_keys t → idem_id r ≠ "".

(** ** The constraints of the order tables, together *)

(** [order_items]: the foreign keys to [orders.id] and [books.id]. *)
Definition order_items_fk (t : Tables) : Prop :=
  ∀ it, it ∈ order_items t →
        is_Some (orders t !! item_order_id it) ∧
        is_Some (books t !! item_product_id it).

(** [order_items_qty_positive]. *)
Definition order_items_qty_positive (t : Tables) : Prop :=
  ∀ it, it ∈ order_items t → 0 < item_qty it.

(** [orders_status_check]. *)
Definition orders_status_check (t : Tables) : Prop :=
  ∀ id o, orders t !! id = Some o →
          order_status o ∈ ["DRAFT"; "CONFIRMED"; "CANCELLED"].

Definition constraints (t : Tables) : Prop :=
  order_items_pk t ∧ order_items_fk t ∧ order_items_qty_positive t ∧
  orders_status_check t ∧ books_stock_nonneg t ∧ idempotency_keys_pk t.

(** The rows [create_draft] adds for [data] under the order [id]. *)
Definition rows_of (id : uuid) (data : OrderCreate) : list OrderItem :=
  (λ it, mkOrderItem id (create_product_id it) (create_qty it))
    <$> create_items data.

Definition add_rows (rows : list OrderItem) (t : Tables) : Tables :=
  {| books := books t; orders := orders t;
     order_items := order_items t ++ rows;
     idempotency_keys := idempotency_keys t |}.

(** The tables with the new DRAFT order and its rows. *)
Definition created (id : uuid) (created_at : datetime) (data : OrderCreate)
    (t : Tables) : Tables :=
  add_rows (rows_of id data)
           (set_orders (<[id := mkOrder "DRAFT" created_at]> (orders t)) t).

(** The response for the new order. *)
Definition created_read (id : uuid) (created_at : datetime)
    (data : OrderCreate) : OrderRead :=
  {| read_id := id; read_status := "DRAFT"; read_created_at := created_at;
     read_items :=
       (λ it, mkOrderItemRead (create_product_id it) (create_qty it))
         <$> create_items data |}.

(** What the tables ask of a new order: an unused id, and lines on
    distinct, existing products with positive quantities that fit the
    32-bit [qty] column. *)
Definition insertable (id : uuid) (data : OrderCreate) (t : Tables) : Prop :=
  orders t !! id = None ∧
  NoDup (create_product_id <$> create_items data) ∧
  (∀ it, it ∈ create_items data →
         is_Some (books t !! create_product_id it) ∧
         0 < create_qty it ∧ create_qty it ≤ int4_max).

(** ** app/utils/pagination.py *)

Definition clamp_pagination (limit offset max_limit : Z) : Z * Z :=
  let limit := Z.max 1 (Z.min limit max_limit) in
  let offset := Z.max 0 offset in
  (limit, offset).

(** The default of [max_limit], the one both callers use. *)
Definition default_max_limit : Z := 100.

(** ** Tenant names (app/api/routes/tenants.py) *)

(** The class [[a-zA-Z0-9_-]]. *)
Definition tenant_char (c : Ascii.ascii) : bool :=
  let n := Ascii.nat_of_ascii c in
  ((97 <=? n) && (n <=? 122) || (65 <=? n) && (n <=? 90) ||
   (48 <=? n) && (n <=? 57) || (n =? 95) || (n =? 45))%nat.

Definition newline : Ascii.ascii := Ascii.ascii_of_nat 10.

(** What may follow the first character for [+$] to match: more characters
    of the class up to the end of the string, or up to a newline that ends
    the string (Python's [$] also matches just before it). *)
Fixpoint tenant_tail (s : string) : bool :=
  match s with
  | EmptyString => true
  | String c EmptyString => tenant_char c || Ascii.eqb c newline
  | String c s' => tenant_char c && tenant_tail s'
  end.

(** [re.match(r'^[a-zA-Z0-9_-]+$', tenant)], as a truth value. *)
Definition tenant_name_match (tenant : string) : bool :=
  match tenant with
  | EmptyString => false
  | String c s => tenant_char c && tenant_tail s
  end.

(** The two checks of [bootstrap_tenant], which come before any DDL; the
    DDL itself is not modelled.  [Return tt] means the function goes on to
    create the schema. *)
Definition bootstrap_tenant_checks (tenant : string) : outcome unit :=
  if negb (tenant_name_match tenant) then
    Raise {| status_code := HTTP_400_BAD_REQUEST;
             detail := JStr "Invalid tenant name" |}
  else if String.eqb tenant "" || (63 <? Z.of_nat (String.length tenant)) then
    Raise {| status_code := HTTP_400_BAD_REQUEST;
             detail := JStr "Tenant name must be 1-63 characters" |}
  else Return tt.

(** ** Concrete stores for the scenarios of the specification *)

Module Scenario.

(** Decimal rendering, for the examples only. *)
Definition str (u : uuid) : string := pretty u.
Definition isoformat (d : datetime) : string := pretty d.

(** Two stock items; orders 10, 12, 13 are DRAFT, 11 is CONFIRMED and 14
    is CANCELLED. *)
Definition store : Tables :=
  {| books := {[ 1%N := mkBook 5 1; 2%N := mkBook 0 1 ]};
     orders := {[ 10%N := mkOrder "DRAFT" 1000;
                  11%N := mkOrder "CONFIRMED" 1001;
                  12%N := mkOrder "DRAFT" 1002;
                  13%N := mkOrder "DRAFT" 1003;
                  14%N := mkOrder "CANCELLED" 1004 ]};
     order_items := [mkOrderItem 10 1 2; mkOrderItem 10 2 1;
                     mkOrderItem 12 1 3; mkOrderItem 13 1 10];
     idempotency_keys := [] |}.

Definition response11 : JSONDict :=
  response_of str isoformat 11 "CONFIRMED" 1001.

(** The same, after order 11 was confirmed under the key "k1". *)
Definition store_k1 : Tables :=
  set_idempotency_keys [mkIdempotencyKey "k1" 11 response11] store.

(** The same, with product 1 at the last version a 32-bit column holds. *)
Definition store_max : Tables :=
  set_books (<[1%N := mkBook 5 int4_max]> (books store)) store.

(** The same, with a DRAFT order 15 that has no line. *)
Definition store_no_lines : Tables :=
  set_orders (<[15%N := mkOrder "DRAFT" 1005]> (orders store)) store.

(** A new order for 2 of product 1 and 1 of product 2 ... *)
Definition draft : OrderCreate :=
  {| create_items := [mkOrderItemCreate 1 2; mkOrderItemCreate 2 1] |}.

(** ... one for 2 of product 1 only ... *)
Definition draft_in_stock : OrderCreate :=
  {| create_items := [mkOrderItemCreate 1 2] |}.

(** ... one on a product that does not exist ... *)
Definition draft_unknown : OrderCreate :=
  {| create_items := [mkOrderItemCreate 1 2; mkOrderItemCreate 7 1] |}.

(** ... and one for 2^31 of product 1. *)
Definition draft_too_many : OrderCreate :=
  {| create_items := [mkOrderItemCreate 1 2147483648] |}.

End Scenario.

(** ** The stock ledger: [try_decrement_book_optimistic] *)

Ltac run :=
  unfold try_decrement_book_optimistic, save_idempotency, get_idempotency,
    set_status, list_items, get, commit, rollback,
    execute_select, execute_dml, execute_checked, bind, ret, raise, fault in *;
  simpl in *.

Lemma in_int4_true (z : Z) : int4_min ≤ z ≤ int4_max → in_int4 z = true.
Proof.
  intros [Hlo Hhi]. unfold in_int4.
  by rewrite (proj2 (Z.leb_le _ _) Hlo), (proj2 (Z.leb_le _ _) Hhi).
Qed.

Lemma in_int4_false (z : Z) :
  z < int4_min ∨ int4_max < z → in_int4 z = false.
Proof.
  intros Hout. unfold in_int4.
  destruct (Z.leb_spec int4_min z) as [Hlo|_]; [|done].
  destruct (Z.leb_spec z int4_max) as [Hhi|_]; [lia | done].
Qed.

(** The UPDATE run on the row version it was guarded with matches that one
    row, and writes it when the new values fit their columns. *)
Lemma update_book_current (t : Tables) (book_id : uuid) (b : Book) (qty : Z) :
  books t !! book_id = Some b →
  qty ≤ book_stock b →
  in_int4 (book_stock b - qty) && in_int4 (book_version b + 1) = true →
  update_book book_id (book_version b) qty t =
    inr (set_books
           (<[book_id := mkBook (book_stock b - qty) (book_version b + 1)]>
              (books t)) t, 1).
Proof.
  intros Hb Hq Hfit. unfold update_book. rewrite Hb, Hfit.
  rewrite Z.eqb_refl. simpl.
  destruct (Z.leb_spec qty (book_stock b)) as [_|Hlt]; [reflexivity | lia].
Qed.

(** When a new value does not fit, the same UPDATE raises and writes
    nothing. *)
Lemma update_book_overflow (t : Tables) (book_id : uuid) (b : Book) (qty : Z) :
  books t !! book_id = Some b →
  qty ≤ book_stock b →
  in_int4 (book_stock b - qty) && in_int4 (book_version b + 1) = false →
  update_book book_id (book_version b) qty t = inl DataError.
Proof.
  intros Hb Hq Hfit. unfold update_book. rewrite Hb, Hfit.
  rewrite Z.eqb_refl. simpl.
  destruct (Z.leb_spec qty (book_stock b)) as [_|Hlt]; [reflexivity | lia].
Qed.


(** C3, as amended: an existing stock item with quantity [q] and version
    [v], asked for [r <= q], yields [(True, q)] when the new quantity
    [q - r] and the new version [v + 1] fit their 32-bit columns; the item
    then holds quantity [q - r] and version [v + 1], and nothing else
    changes. *)
Theorem try_decrement_sufficient (db : Session) (book_id : uuid) (q v r : Z) :
  books (pending db) !! book_id = Some (mkBook q v) →
  r ≤ q →
  q - r ≤ int4_max →
  int4_min ≤ v + 1 ≤ int4_max →
  try_decrement_book_optimistic book_id r db =
    (Return (true, q),
     {| committed := committed db;
        pending := set_books (<[book_id := mkBook (q - r) (v + 1)]>
                                (books (pending db))) (pending db) |}).
Proof.
  intros Hb Hr Hq Hv. run. unfold select_version_stock. rewrite Hb. simpl.
  destruct (Z.ltb_spec q r) as [Hlt|_]; [lia|].
  assert (in_int4 (q - r) && in_int4 (v + 1) = true) as Hfit.
  { rewrite !in_int4_true; [done | done |]. unfold int4_min. lia. }
  pose proof (update_book_current _ _ _ _ Hb Hr Hfit) as Hupd.
  simpl in Hupd. rewrite Hupd. reflexivity.
Qed.

(** C5: an existing stock item with quantity [q], asked for [r > q], yields
    [(False, q)] and the session is left exactly as it was. *)
Theorem try_decrement_insufficient (db : Session) (book_id : uuid) (q v r : Z) :
  books (pending db) !! book_id = Some (mkBook q v) →
  q < r →
  try_decrement_book_optimistic book_id r db = (Return (false, q), db).
Proof.
  intros Hb Hr. run. unfold select_version_stock. rewrite Hb. simpl.
  destruct (Z.ltb_spec q r) as [_|Hge]; [reflexivity | lia].
Qed.

(** C8: a product id with no stock item yields [(False, 0)] for every
    requested quantity, and the session is left exactly as it was. *)
Theorem try_decrement_missing (db : Session) (book_id : uuid) (r : Z) :
  books (pending db) !! book_id = None →
  try_decrement_book_optimistic book_id r db = (Return (false, 0), db).
Proof.
  intros Hb. run. unfold select_version_stock. rewrite Hb. reflexivity.
Qed.

(** ** The idempotency store *)

Lemma select_idempotency_None (key : string) (t : Tables) :
  select_idempotency key t = None ↔
  ∀ r, r ∈ idempotency_keys t → idem_id r ≠ key.
Proof.
  unfold select_idempotency.
  induction (idempotency_keys t) as [|r rows IH]; simpl.
  - split; [|done]. intros _ r Hr. by apply elem_of_nil in Hr.
  - destruct (String.eqb_spec (idem_id r) key) as [E|NE].
    + split; [done|]. intros H. exfalso. apply (H r); [left | done].
    + rewrite IH. split.
      * intros H r' Hr'. apply elem_of_cons in Hr' as [->|Hr']; auto.
      * intros H r' Hr'. apply H. by right.
Qed.

Lemma select_idempotency_Some (key : string) (t : Tables) (r : IdempotencyKey) :
  select_idempotency key t = Some r → r ∈ idempotency_keys t ∧ idem_id r = key.
Proof.
  unfold select_idempotency. intros H. apply List.find_some in H as [Hin He].
  split; [by apply list_elem_of_In | by apply String.eqb_eq].
Qed.

(** Under the primary key, the row of a key is the one the SELECT returns. *)
Lemma select_idempotency_pk (t : Tables) (r : IdempotencyKey) :
  idempotency_keys_pk t →
  r ∈ idempotency_keys t →
  select_idempotency (idem_id r) t = Some r.
Proof.
  unfold idempotency_keys_pk, select_idempotency.
  induction (idempotency_keys t) as [|r' rows IH]; simpl; intros Hpk Hin.
  - by apply elem_of_nil in Hin.
  - apply NoDup_cons in Hpk as [Hnotin Hpk].
    apply elem_of_cons in Hin as [->|Hin].
    + by rewrite String.eqb_refl.
    + destruct (String.eqb_spec (idem_id r') (idem_id r)) as [E|NE]; [|by apply IH].
      exfalso. apply Hnotin. rewrite E. by apply list_elem_of_fmap_2.
Qed.

Lemma existsb_select (key : string) (t : Tables) :
  existsb (λ r, String.eqb (idem_id r) key) (idempotency_keys t) =
  bool_decide (is_Some (select_idempotency key t)).
Proof.
  unfold select_idempotency.
  induction (idempotency_keys t) as [|r rows IH]; simpl; [done|].
  by destruct (String.eqb (idem_id r) key).
Qed.

(** Conflict on [id]: the INSERT does nothing. *)
Lemma insert_idempotency_conflict (row : IdempotencyKey) (t : Tables) :
  is_Some (select_idempotency (idem_id row) t) →
  insert_idempotency row t = t.
Proof.
  intros H. unfold insert_idempotency. rewrite existsb_select.
  by rewrite bool_decide_eq_true_2.
Qed.

Lemma insert_idempotency_fresh (row : IdempotencyKey) (t : Tables) :
  select_idempotency (idem_id row) t = None →
  insert_idempotency row t =
    set_idempotency_keys (idempotency_keys t ++ [row]) t.
Proof.
  intros H. unfold insert_idempotency. rewrite existsb_select, H.
  rewrite bool_decide_eq_false_2; [done|]. by intros [? ?].
Qed.

(** Whatever the INSERT does, the rows that were there stay, in place. *)
Lemma insert_idempotency_prefix (row : IdempotencyKey) (t : Tables) :
  idempotency_keys t `prefix_of` idempotency_keys (insert_idempotency row t).
Proof.
  unfold insert_idempotency.
  destruct (existsb _ _); simpl; [done | by apply prefix_app_r].
Qed.

Lemma insert_idempotency_pk (row : IdempotencyKey) (t : Tables) :
  idempotency_keys_pk t → idempotency_keys_pk (insert_idempotency row t).
Proof.
  intros Hpk.
  destruct (select_idempotency (idem_id row) t) as [r|] eqn:Hsel.
  - by rewrite insert_idempotency_conflict.
  - rewrite insert_idempotency_fresh by done.
    unfold idempotency_keys_pk in *. simpl. rewrite fmap_app.
    apply NoDup_app. split; [done|]. split; [|apply NoDup_singleton].
    intros k Hk Hk'. apply list_elem_of_singleton in Hk'. subst k.
    apply list_elem_of_fmap in Hk as (r & Hr & Hin).
    rewrite select_idempotency_None in Hsel. by apply (Hsel r).
Qed.

Lemma insert_idempotency_select (row : IdempotencyKey) (t : Tables) :
  select_idempotency (idem_id row) t = None →
  select_idempotency (idem_id row) (insert_idempotency row t) = Some row.
Proof.
  intros Hsel. rewrite insert_idempotency_fresh by done.
  unfold select_idempotency in *. simpl.
  induction (idempotency_keys t) as [|r rows IH]; simpl in *.
  - by rewrite String.eqb_refl.
  - destruct (String.eqb (idem_id r) (idem_id row)); [done | by apply IH].
Qed.

Lemma insert_idempotency_frame (row : IdempotencyKey) (t : Tables) :
  books (insert_idempotency row t) = books t ∧
  orders (insert_idempotency row t) = orders t ∧
  order_items (insert_idempotency row t) = order_items t.
Proof. unfold insert_idempotency. by destruct (existsb _ _). Qed.

(** ** The loop over the lines *)

(** One call of the ledger on a line, in a single transaction. *)
Lemma try_decrement_line (db : Session) (it : OrderItem) :
  try_decrement_book_optimistic (item_product_id it) (item_qty it) db =
    if fits (pending db) it then
      (Return (negb (short (pending db) it), available (pending db) it),
       {| committed := committed db; pending := apply_line (pending db) it |})
    else (Fault DataError, db).
Proof.
  run. unfold select_version_stock, apply_line, short, available, fits.
  destruct (books (pending db) !! item_product_id it) as [b|] eqn:Hb; simpl.
  - destruct (Z.ltb_spec (book_stock b) (item_qty it)) as [Hlt|Hge]; simpl.
    + by destruct db.
    + destruct (in_int4 (book_stock b - item_qty it) &&
                in_int4 (book_version b + 1)) eqn:Hfit.
      * rewrite (update_book_current _ _ _ _ Hb Hge Hfit). simpl.
        do 3 f_equal. unfold decrement. apply map_eq. intros i.
        destruct (decide (i = item_product_id it)) as [->|Hne].
        -- by rewrite lookup_insert_eq, lookup_alter_eq, Hb.
        -- by rewrite lookup_insert_ne, lookup_alter_ne.
      * by rewrite (update_book_overflow _ _ _ _ Hb Hge Hfit).
  - by destruct db.
Qed.

(** The values a line may hold for its UPDATE to fit. *)
Lemma fits_true (t : Tables) (it : OrderItem) (b : Book) :
  books t !! item_product_id it = Some b →
  item_qty it ≤ book_stock b →
  book_stock b - item_qty it ≤ int4_max →
  int4_min ≤ book_version b + 1 ≤ int4_max →
  fits t it = true.
Proof.
  intros Hb Hq Hs Hv. unfold fits. rewrite Hb.
  rewrite !in_int4_true; [by rewrite orb_true_r | done |].
  unfold int4_min. lia.
Qed.

Lemma fits_ext (t t' : Tables) (it : OrderItem) :
  books t' !! item_product_id it = books t !! item_product_id it →
  fits t' it = fits t it.
Proof. intros E. unfold fits. by rewrite E. Qed.

(** [books_stock_nonneg] is never put at risk by the ledger. *)
Lemma apply_line_stock_nonneg (t : Tables) (it : OrderItem) :
  books_stock_nonneg t → books_stock_nonneg (apply_line t it).
Proof.
  unfold books_stock_nonneg, apply_line, short, decrement.
  intros Hnn book_id b'.
  destruct (books t !! item_product_id it) as [b|] eqn:Hb; [|by apply Hnn].
  destruct (Z.ltb_spec (book_stock b) (item_qty it)) as [Hlt|Hge];
    [by apply Hnn|]. simpl.
  destruct (decide (book_id = item_product_id it)) as [->|Hne].
  - rewrite lookup_alter_eq, Hb. simpl. intros [= <-]. simpl. lia.
  - rewrite lookup_alter_ne by done. by apply Hnn.
Qed.

Lemma apply_line_books_ne (t : Tables) (it : OrderItem) (book_id : uuid) :
  book_id ≠ item_product_id it →
  books (apply_line t it) !! book_id = books t !! book_id.
Proof.
  intros Hne. unfold apply_line, decrement.
  destruct (short t it); simpl; [done|]. by rewrite lookup_alter_ne.
Qed.

Lemma apply_line_frame (t : Tables) (it : OrderItem) :
  orders (apply_line t it) = orders t ∧
  order_items (apply_line t it) = order_items t ∧
  idempotency_keys (apply_line t it) = idempotency_keys t.
Proof. unfold apply_line. by destruct (short t it). Qed.

Lemma shortages_of_ext (str : uuid → string) (t t' : Tables)
    (items : list OrderItem) :
  (∀ it, it ∈ items → books t' !! item_product_id it = books t !! item_product_id it) →
  shortages_of str t' items = shortages_of str t items.
Proof.
  unfold shortages_of. induction items as [|it items IH]; intros Hsame; [done|].
  assert (short t' it = short t it ∧ available t' it = available t it) as [Hs Ha].
  { unfold short, available. rewrite (Hsame it) by left. done. }
  assert (∀ it', it' ∈ items →
            books t' !! item_product_id it' = books t !! item_product_id it')
    as Hrest by (intros it' Hit'; apply Hsame; by right).
  rewrite !filter_cons, Hs.
  destruct (decide (short t it)).
  - rewrite !fmap_cons, Ha. f_equal. by apply IH.
  - by apply IH.
Qed.

Lemma shortages_of_cons (str : uuid → string) (t : Tables)
    (it : OrderItem) (items : list OrderItem) :
  shortages_of str t (it :: items) =
    (if short t it then [shortage str it (available t it)] else [])
      ++ shortages_of str t items.
Proof.
  unfold shortages_of. rewrite filter_cons.
  destruct (short t it); simpl; done.
Qed.

Lemma decrement_items_cons (str : uuid → string) (it : OrderItem)
    (items : list OrderItem) (shortages : list JSONValue) (db : Session) :
  decrement_items str (it :: items) shortages db =
    if fits (pending db) it then
      decrement_items str items
        (if negb (short (pending db) it) then shortages
         else shortages ++ [shortage str it (available (pending db) it)])
        {| committed := committed db; pending := apply_line (pending db) it |}
    else (Fault DataError, db).
Proof.
  simpl. unfold bind. rewrite try_decrement_line.
  by destruct (fits (pending db) it).
Qed.

(** The loop visits every line.  When no product occurs twice among the
    lines and every UPDATE fits, each line is judged against the stock the
    loop started with. *)
Lemma decrement_items_spec (str : uuid → string) (items : list OrderItem) :
  NoDup (item_product_id <$> items) →
  ∀ (shortages : list JSONValue) (db : Session),
    (∀ it, it ∈ items → fits (pending db) it = true) →
    decrement_items str items shortages db =
      (Return (shortages ++ shortages_of str (pending db) items),
       {| committed := committed db;
          pending := foldl apply_line (pending db) items |}).
Proof.
  induction items as [|it items IH]; intros Hnd shortages db Hfit.
  - simpl. unfold ret, shortages_of. simpl. rewrite app_nil_r. by destruct db.
  - simpl in Hnd. apply NoDup_cons in Hnd as [Hnotin Hnd].
    assert (∀ it', it' ∈ items →
              books (apply_line (pending db) it) !! item_product_id it' =
              books (pending db) !! item_product_id it') as Hsame.
    { intros it' Hit'. apply apply_line_books_ne. intros E. apply Hnotin.
      rewrite <- E. by apply list_elem_of_fmap_2. }
    rewrite decrement_items_cons, (Hfit it) by left.
    rewrite IH; [|done|].
    + simpl. f_equal. f_equal.
      rewrite shortages_of_cons.
      rewrite (shortages_of_ext str (pending db) (apply_line (pending db) it))
        by done.
      destruct (short (pending db) it); simpl; [by rewrite <- app_assoc | done].
    + intros it' Hit'. simpl.
      rewrite (fits_ext (pending db)) by (by apply Hsame).
      apply Hfit. by right.
Qed.

(** Without any assumption on the lines, the loop either visits every line
    and returns, or stops at an UPDATE that does not fit; in both cases it
    leaves the committed rows alone. *)
Lemma decrement_items_cases (str : uuid → string) (items : list OrderItem) :
  ∀ (shortages : list JSONValue) (db : Session),
    (∃ shortages',
       decrement_items str items shortages db =
         (Return shortages',
          {| committed := committed db;
             pending := foldl apply_line (pending db) items |})) ∨
    (∃ db',
       decrement_items str items shortages db = (Fault DataError, db') ∧
       committed db' = committed db).
Proof.
  induction items as [|it items IH]; intros shortages db.
  - left. exists shortages. simpl. unfold ret. by destruct db.
  - rewrite decrement_items_cons. simpl.
    destruct (fits (pending db) it); [|right; by exists db].
    match goal with
    | |- context [decrement_items str items ?s ?d] =>
        destruct (IH s d) as [[shortages' ->]|(db' & -> & Hc)]
    end.
    + left. by exists shortages'.
    + right. by exists db'.
Qed.

Lemma foldl_apply_line_frame (t : Tables) (items : list OrderItem) :
  orders (foldl apply_line t items) = orders t ∧
  order_items (foldl apply_line t items) = order_items t ∧
  idempotency_keys (foldl apply_line t items) = idempotency_keys t.
Proof.
  revert t. induction items as [|it items IH]; intros t; simpl; [done|].
  destruct (IH (apply_line t it)) as (-> & -> & ->). apply apply_line_frame.
Qed.

(** The primary key of [order_items] keeps the products of one order
    distinct. *)
Lemma items_of_NoDup (t : Tables) (order_id : uuid) :
  order_items_pk t → NoDup (item_product_id <$> items_of t order_id).
Proof.
  unfold order_items_pk, items_of.
  induction (order_items t) as [|it items IH]; simpl; intros Hpk.
  - constructor.
  - apply NoDup_cons in Hpk as [Hnotin Hpk]. rewrite filter_cons.
    destruct (decide (item_order_id it = order_id)) as [E|NE]; [|by apply IH].
    rewrite fmap_cons. apply NoDup_cons. split; [|by apply IH].
    intros Hin. apply Hnotin.
    apply list_elem_of_fmap in Hin as (it' & Hpid & Hit').
    apply list_elem_of_filter in Hit' as [Hoid Hit'].
    apply list_elem_of_fmap. exists it'. split; [|done]. congruence.
Qed.

Lemma foldl_decrement_other (items : list OrderItem) (bs : gmap uuid Book)
    (book_id : uuid) :
  book_id ∉ item_product_id <$> items →
  foldl decrement bs items !! book_id = bs !! book_id.
Proof.
  revert bs. induction items as [|it items IH]; intros bs Hnotin; simpl; [done|].
  rewrite fmap_cons in Hnotin. apply not_elem_of_cons in Hnotin as [Hne Hnotin].
  rewrite IH by done. unfold decrement. by rewrite lookup_alter_ne.
Qed.

Lemma foldl_decrement_line (items : list OrderItem) (bs : gmap uuid Book)
    (it : OrderItem) :
  NoDup (item_product_id <$> items) →
  it ∈ items →
  foldl decrement bs items !! item_product_id it =
    (λ b, mkBook (book_stock b - item_qty it) (book_version b + 1))
      <$> bs !! item_product_id it.
Proof.
  revert bs. induction items as [|it' items IH]; intros bs Hnd Hin; simpl.
  - by apply elem_of_nil in Hin.
  - rewrite fmap_cons in Hnd. apply NoDup_cons in Hnd as [Hnotin Hnd].
    apply elem_of_cons in Hin as [->|Hin].
    + rewrite foldl_decrement_other by done.
      unfold decrement. by rewrite lookup_alter_eq.
    + rewrite IH by done. unfold decrement. rewrite lookup_alter_ne; [done|].
      intros E. apply Hnotin. rewrite E. by apply list_elem_of_fmap_2.
Qed.

(** When no line is short and no product occurs twice, the loop decrements
    every line. *)
Lemma foldl_apply_line_all (items : list OrderItem) (t : Tables) :
  NoDup (item_product_id <$> items) →
  (∀ it, it ∈ items → short t it = false) →
  foldl apply_line t items = set_books (foldl decrement (books t) items) t.
Proof.
  revert t. induction items as [|it items IH]; intros t Hnd Hok; simpl.
  - by destruct t.
  - rewrite fmap_cons in Hnd. apply NoDup_cons in Hnd as [Hnotin Hnd].
    assert (apply_line t it = set_books (decrement (books t) it) t) as Happ.
    { unfold apply_line. by rewrite (Hok it) by left. }
    rewrite IH; [by rewrite Happ | done |].
    intros it' Hit'. unfold short.
    rewrite apply_line_books_ne.
    + apply Hok. by right.
    + intros E. apply Hnotin. rewrite <- E. by apply list_elem_of_fmap_2.
Qed.

Lemma shortages_of_nil (str : uuid → string) (t : Tables)
    (items : list OrderItem) :
  shortages_of str t items = [] ↔ ∀ it, it ∈ items → short t it = false.
Proof.
  induction items as [|it items IH].
  - split; [|done]. intros _ it Hit. by apply elem_of_nil in Hit.
  - rewrite shortages_of_cons. destruct (short t it) eqn:Hs; simpl.
    + split; [done|]. intros H. specialize (H it). rewrite Hs in H.
      discriminate H. by left.
    + rewrite IH. split.
      * intros H it' Hit'. apply elem_of_cons in Hit' as [->|Hit']; auto.
      * intros H it' Hit'. apply H. by right.
Qed.

(** ** The paths of [confirm_order] *)

Lemma remember_spec (idempotency_key : option string) (order_id : uuid)
    (response : JSONDict) (db : Session) :
  remember idempotency_key order_id response db =
    (Return tt, remembered idempotency_key order_id response db,
     remembered_log idempotency_key order_id response db).
Proof.
  unfold remember, remembered, remembered_log.
  destruct (truthy idempotency_key); [|done].
  unfold bind_T, lift, commit_T. by run.
Qed.

Section paths.

Variable str : uuid → string.
Variable isoformat : datetime → string.
Variables (order_id : uuid) (idempotency_key : option string) (db : Session).

Lemma confirm_order_traced_hit (c : IdempotencyKey) :
  cached idempotency_key (pending db) = Some c →
  confirm_order_traced str isoformat order_id idempotency_key db =
    (Return (idem_response c), db, []).
Proof.
  unfold cached, confirm_order_traced. intros Hc.
  destruct (truthy idempotency_key) as [key|]; [|done].
  unfold bind_T at 1. unfold lift at 1. unfold get_idempotency, execute_select.
  by rewrite Hc.
Qed.

Lemma confirm_order_hit (c : IdempotencyKey) :
  cached idempotency_key (pending db) = Some c →
  confirm_order str isoformat order_id idempotency_key db =
    (Return (idem_response c), db).
Proof.
  intros Hc. unfold confirm_order, erase.
  by rewrite (confirm_order_traced_hit c).
Qed.

Hypothesis miss : cached idempotency_key (pending db) = None.

Lemma confirm_order_traced_miss :
  confirm_order_traced str isoformat order_id idempotency_key db =
    match orders (pending db) !! order_id with
    | None =>
        (Raise (mkHTTPException HTTP_404_NOT_FOUND (JStr "order not found")),
         db, [])
    | Some order =>
        if negb (String.eqb (order_status order) "DRAFT") then
          let response :=
            response_of str isoformat order_id (order_status order)
                        (order_created_at order) in
          (Return response,
           remembered idempotency_key order_id response db,
           remembered_log idempotency_key order_id response db)
        else
          match decrement_items str (items_of (pending db) order_id) [] db with
          | (Return [], db1) =>
              let response :=
                response_of str isoformat order_id "CONFIRMED"
                            (order_created_at order) in
              let t1 := with_status "CONFIRMED" order_id (pending db1) in
              (Return response,
               remembered idempotency_key order_id response (begin t1),
               t1 :: remembered_log idempotency_key order_id response
                       (begin t1))
          | (Return shortages, db1) =>
              (Raise (mkHTTPException HTTP_409_CONFLICT
                        (JDict [("shortages", JList shortages)])),
               begin (committed db1), [])
          | (Raise e, db1) => (Raise e, db1, [])
          | (Fault IntegrityError, db1) =>
              (Raise (mkHTTPException HTTP_400_BAD_REQUEST
                        (JStr "Data integrity violation")),
               begin (committed db1), [])
          | (Fault DataError, db1) =>
              (Raise (mkHTTPException HTTP_500_INTERNAL_SERVER_ERROR
                        (JStr "confirm failed")),
               begin (committed db1), [])
          end
    end.
Proof.
  unfold confirm_order_traced.
  assert ((match truthy idempotency_key with
           | Some key => get_idempotency key
           | None => ret None
           end) db = (Return None, db)) as Hstep1.
  { unfold cached in miss. destruct (truthy idempotency_key); [|done].
    unfold get_idempotency, execute_select. by rewrite miss. }
  unfold bind_T at 1. unfold lift at 1. rewrite Hstep1.
  unfold bind_T at 1. unfold lift at 1. unfold get at 1.
  unfold execute_select at 1.
  destruct (orders (pending db) !! order_id) as [order|]; [|done].
  destruct (negb (String.eqb (order_status order) "DRAFT")).
  - unfold bind_T at 1. rewrite remember_spec.
    unfold lift, ret. simpl. by rewrite app_nil_r.
  - unfold bind_T at 1. unfold lift at 1. unfold list_items at 1.
    unfold execute_select at 1.
    unfold bind_T at 1. unfold try_except_T at 1.
    unfold bind_T at 1. unfold lift at 1.
    fold (items_of (pending db) order_id).
    destruct (decrement_items str (items_of (pending db) order_id) [] db)
      as [[[|s shortages]|e|[|]] db1]; [| |done|done|done].
    + unfold bind_T at 1. unfold lift at 1. unfold set_status, execute_dml.
      simpl. unfold bind_T at 1. rewrite remember_spec.
      unfold lift, ret. simpl. by rewrite app_nil_r.
    + done.
Qed.

Lemma confirm_order_miss :
  confirm_order str isoformat order_id idempotency_key db =
    match orders (pending db) !! order_id with
    | None =>
        (Raise (mkHTTPException HTTP_404_NOT_FOUND (JStr "order not found")), db)
    | Some order =>
        if negb (String.eqb (order_status order) "DRAFT") then
          let response :=
            response_of str isoformat order_id (order_status order)
                        (order_created_at order) in
          (Return response,
           remembered idempotency_key order_id response db)
        else
          match decrement_items str (items_of (pending db) order_id) [] db with
          | (Return [], db1) =>
              let response :=
                response_of str isoformat order_id "CONFIRMED"
                            (order_created_at order) in
              (Return response,
               remembered idempotency_key order_id response
                 (begin (with_status "CONFIRMED" order_id (pending db1))))
          | (Return shortages, db1) =>
              (Raise (mkHTTPException HTTP_409_CONFLICT
                        (JDict [("shortages", JList shortages)])),
               begin (committed db1))
          | (Raise e, db1) => (Raise e, db1)
          | (Fault IntegrityError, db1) =>
              (Raise (mkHTTPException HTTP_400_BAD_REQUEST
                        (JStr "Data integrity violation")),
               begin (committed db1))
          | (Fault DataError, db1) =>
              (Raise (mkHTTPException HTTP_500_INTERNAL_SERVER_ERROR
                        (JStr "confirm failed")),
               begin (committed db1))
          end
    end.
Proof.
  unfold confirm_order, erase. rewrite confirm_order_traced_miss.
  destruct (orders (pending db) !! order_id) as [order|]; [|done].
  destruct (negb (String.eqb (order_status order) "DRAFT")); [done|].
  by destruct (decrement_items str (items_of (pending db) order_id) [] db)
    as [[[|s shortages]|e|[|]] db1].
Qed.

End paths.

(** The lines of an order all fit when each of them, if it is not short,
    leaves the stock and the version of its product within range. *)
Lemma lines_fit (t : Tables) (items : list OrderItem) :
  (∀ it b, it ∈ items →
           books t !! item_product_id it = Some b →
           item_qty it ≤ book_stock b →
           book_stock b - item_qty it ≤ int4_max ∧
           int4_min ≤ book_version b + 1 ≤ int4_max) →
  ∀ it, it ∈ items → fits t it = true.
Proof.
  intros Hrange it Hit.
  destruct (books t !! item_product_id it) as [b|] eqn:Hb;
    [|by unfold fits; rewrite Hb].
  destruct (Z.ltb_spec (book_stock b) (item_qty it)) as [Hlt|Hge].
  - unfold fits. rewrite Hb. by rewrite (proj2 (Z.ltb_lt _ _) Hlt).
  - destruct (Hrange it b Hit Hb Hge) as [Hs Hv]. by apply (fits_true t it b).
Qed.

(** ** Confirmation of a DRAFT order *)

(** C1, as amended: for a DRAFT order with at least one failing line
    (requested quantity above the product's stock, or no such product), when
    no idempotency record is found for the key and the decrement of every
    line that is not failing stays within the 32-bit range of the stock and
    version columns, [confirm_order] judges every line, raises 409 with
    exactly one shortage entry [{product_id, requested, available}] per
    failing line, in line order, commits nothing and leaves the session as it
    started: no stock is decremented, the order is still DRAFT. *)
Theorem confirm_order_insufficient_stock (str : uuid → string)
    (isoformat : datetime → string) (t : Tables) (order_id : uuid)
    (idempotency_key : option string) (order : Order) :
  order_items_pk t →
  cached idempotency_key t = None →
  orders t !! order_id = Some order →
  order_status order = "DRAFT" →
  (∃ it, it ∈ items_of t order_id ∧ short t it = true) →
  (∀ it b, it ∈ items_of t order_id →
           books t !! item_product_id it = Some b →
           item_qty it ≤ book_stock b →
           book_stock b - item_qty it ≤ int4_max ∧
           int4_min ≤ book_version b + 1 ≤ int4_max) →
  confirm_order_traced str isoformat order_id idempotency_key (begin t) =
    (Raise (mkHTTPException HTTP_409_CONFLICT
              (JDict [("shortages",
                       JList (shortages_of str t (items_of t order_id)))])),
     begin t, []).
Proof.
  intros Hpk Hmiss Horder Hdraft (it & Hit & Hshort) Hrange.
  rewrite confirm_order_traced_miss by done. simpl. rewrite Horder, Hdraft.
  simpl.
  rewrite decrement_items_spec;
    [|by apply items_of_NoDup | by apply lines_fit].
  simpl.
  destruct (shortages_of str t (items_of t order_id)) as [|s shortages] eqn:Hs;
    [|done].
  pose proof (proj1 (shortages_of_nil str t _) Hs it Hit) as Hnot.
  congruence.
Qed.

(** C4, as amended: for a DRAFT order all of whose lines are satisfiable,
    when no idempotency record is found for the key and every line's
    decrement stays within the 32-bit range of the stock and version
    columns, [confirm_order] returns
    [{"id", "status": "CONFIRMED", "created_at"}].  Its first commit makes
    durable, at once, every line's decrement (stock less the quantity,
    version plus one) and the status CONFIRMED, with other books and orders
    as before: no commit holds the one without the other.  The only other
    commit is the one that stores the response under a non-empty key, and
    the call ends with nothing pending. *)
Theorem confirm_order_success (str : uuid → string)
    (isoformat : datetime → string) (t : Tables) (order_id : uuid)
    (idempotency_key : option string) (order : Order) :
  order_items_pk t →
  cached idempotency_key t = None →
  orders t !! order_id = Some order →
  order_status order = "DRAFT" →
  (∀ it, it ∈ items_of t order_id →
         ∃ b, books t !! item_product_id it = Some b ∧
              item_qty it ≤ book_stock b ∧
              book_stock b - item_qty it ≤ int4_max ∧
              int4_min ≤ book_version b + 1 ≤ int4_max) →
  let response :=
    response_of str isoformat order_id "CONFIRMED" (order_created_at order) in
  ∃ t1 t',
    confirm_order_traced str isoformat order_id idempotency_key (begin t) =
      (Return response, begin t',
       t1 :: match truthy idempotency_key with
             | Some _ => [t']
             | None => []
             end) ∧
    (∀ it b, it ∈ items_of t order_id →
             books t !! item_product_id it = Some b →
             books t1 !! item_product_id it =
               Some (mkBook (book_stock b - item_qty it) (book_version b + 1))) ∧
    (∀ book_id, book_id ∉ item_product_id <$> items_of t order_id →
                books t1 !! book_id = books t !! book_id) ∧
    orders t1 =
      <[order_id := mkOrder "CONFIRMED" (order_created_at order)]> (orders t) ∧
    order_items t1 = order_items t ∧
    idempotency_keys t1 = idempotency_keys t ∧
    t' = match truthy idempotency_key with
         | Some key =>
             set_idempotency_keys
               (idempotency_keys t ++ [mkIdempotencyKey key order_id response])
               t1
         | None => t1
         end.
Proof.
  intros Hpk Hmiss Horder Hdraft Hok response.
  pose proof (items_of_NoDup t order_id Hpk) as Hnd.
  assert (∀ it, it ∈ items_of t order_id → short t it = false) as Hnone.
  { intros it Hit. destruct (Hok it Hit) as (b & Hb & Hq & _).
    unfold short. rewrite Hb. apply Z.ltb_ge. lia. }
  assert (∀ it, it ∈ items_of t order_id → fits t it = true) as Hfit.
  { intros it Hit. destruct (Hok it Hit) as (b & Hb & Hq & Hs & Hv).
    by apply (fits_true t it b). }
  rewrite confirm_order_traced_miss by done. simpl. rewrite Horder, Hdraft.
  simpl.
  rewrite decrement_items_spec by done. simpl.
  rewrite (proj2 (shortages_of_nil str t _) Hnone).
  rewrite foldl_apply_line_all by done.
  set (t1 := with_status "CONFIRMED" order_id
               (set_books (foldl decrement (books t) (items_of t order_id)) t)).
  assert (cached idempotency_key t1 = None) as Hmiss1 by done.
  exists t1. unfold remembered, remembered_log, cached in *.
  destruct (truthy idempotency_key) as [key|].
  - eexists. split; [reflexivity|]. simpl.
    rewrite (insert_idempotency_fresh (mkIdempotencyKey key order_id _) t1)
      by done.
    split; [|split; [|split; [|done]]].
    + intros it b Hit Hb. by rewrite foldl_decrement_line, Hb.
    + intros book_id Hnotin. by apply foldl_decrement_other.
    + apply map_eq. intros i. destruct (decide (i = order_id)) as [->|Hne].
      * by rewrite lookup_alter_eq, lookup_insert_eq, Horder.
      * by rewrite lookup_alter_ne, lookup_insert_ne.
  - exists t1. split; [reflexivity|]. simpl.
    split; [|split; [|split; [|done]]].
    + intros it b Hit Hb. by rewrite foldl_decrement_line, Hb.
    + intros book_id Hnotin. by apply foldl_decrement_other.
    + apply map_eq. intros i. destruct (decide (i = order_id)) as [->|Hne].
      * by rewrite lookup_alter_eq, lookup_insert_eq, Horder.
      * by rewrite lookup_alter_ne, lookup_insert_ne.
Qed.

(** ** Idempotent replay *)

Lemma truthy_Some (idempotency_key : option string) (key : string) :
  truthy idempotency_key = Some key ↔ idempotency_key = Some key ∧ key ≠ "".
Proof.
  unfold truthy. destruct idempotency_key as [k|].
  - destruct (String.eqb_spec k "") as [E|NE]; split.
    + discriminate.
    + intros [[= ->] Hne]. contradiction.
    + by intros [= ->].
    + by intros [[= ->] _].
  - split; [discriminate | by intros [? _]].
Qed.

Lemma no_record_cached (idempotency_key : option string) (t : Tables) :
  (∀ key, idempotency_key = Some key →
          ∀ r, r ∈ idempotency_keys t → idem_id r ≠ key) →
  cached idempotency_key t = None.
Proof.
  intros Hno. unfold cached.
  destruct (truthy idempotency_key) as [key|] eqn:Hk; [|done].
  apply truthy_Some in Hk as [-> _]. apply select_idempotency_None. by apply Hno.
Qed.

Lemma cached_frame (idempotency_key : option string) (t t' : Tables) :
  idempotency_keys t' = idempotency_keys t →
  cached idempotency_key t' = cached idempotency_key t.
Proof.
  intros E. unfold cached, select_idempotency. by rewrite E.
Qed.

(** Once the response is remembered, the same call finds it again; without
    a usable key the call has to reproduce it. *)
Lemma confirm_order_remembered (str : uuid → string)
    (isoformat : datetime → string) (order_id : uuid)
    (idempotency_key : option string) (response : JSONDict) (db : Session) :
  cached idempotency_key (pending db) = None →
  (truthy idempotency_key = None →
   confirm_order str isoformat order_id idempotency_key db =
     (Return response, db)) →
  confirm_order str isoformat order_id idempotency_key
      (remembered idempotency_key order_id response db) =
    (Return response, remembered idempotency_key order_id response db).
Proof.
  intros Hmiss Hnokey. unfold remembered, cached in *.
  destruct (truthy idempotency_key) as [key|] eqn:Hk; [|by apply Hnokey].
  rewrite (confirm_order_hit _ _ _ _ _ (mkIdempotencyKey key order_id response));
    [done|].
  unfold cached. rewrite Hk. simpl.
  by apply (insert_idempotency_select (mkIdempotencyKey key order_id response)).
Qed.

(** C2: from a state with no record for the key, a confirmation that
    succeeds is answered with the same response when repeated with the same
    order id and key, and the repeated call changes nothing at all: stock is
    decremented by the first call only. *)
Theorem confirm_order_twice (str : uuid → string)
    (isoformat : datetime → string) (db : Session) (order_id : uuid)
    (idempotency_key : option string) (response : JSONDict) (db1 : Session) :
  (∀ key, idempotency_key = Some key →
          ∀ r, r ∈ idempotency_keys (pending db) → idem_id r ≠ key) →
  confirm_order str isoformat order_id idempotency_key db =
    (Return response, db1) →
  confirm_order str isoformat order_id idempotency_key db1 =
    (Return response, db1).
Proof.
  intros Hno Hfirst. pose proof (no_record_cached _ _ Hno) as Hmiss.
  rewrite confirm_order_miss in Hfirst by done.
  destruct (orders (pending db) !! order_id) as [order|] eqn:Horder; [|done].
  destruct (negb (String.eqb (order_status order) "DRAFT")) eqn:Hstatus.
  - simpl in Hfirst. injection Hfirst as <- <-.
    apply confirm_order_remembered; [done|]. intros Hk.
    rewrite confirm_order_miss by done. rewrite Horder, Hstatus. simpl.
    unfold remembered. by rewrite Hk.
  - destruct (decrement_items_cases str (items_of (pending db) order_id) [] db)
      as [[shortages Hloop]|(db' & Hloop & _)];
      rewrite Hloop in Hfirst; [|done].
    destruct shortages as [|s shortages]; [|done].
    simpl in Hfirst. injection Hfirst as <- <-.
    set (t1 := with_status "CONFIRMED" order_id
                 (foldl apply_line (pending db) (items_of (pending db) order_id))).
    assert (cached idempotency_key t1 = None) as Hmiss1.
    { rewrite <- Hmiss. apply cached_frame. simpl.
      apply foldl_apply_line_frame. }
    apply confirm_order_remembered; [done|]. intros Hk.
    rewrite confirm_order_miss by done. simpl.
    destruct (foldl_apply_line_frame (pending db) (items_of (pending db) order_id))
      as (-> & _ & _).
    rewrite lookup_alter_eq, Horder. simpl.
    unfold remembered. by rewrite Hk.
Qed.

(** ** What a whole call does to the stored rows *)

Lemma remembered_begin (idempotency_key : option string) (order_id : uuid)
    (response : JSONDict) (t : Tables) :
  remembered idempotency_key order_id response (begin t) =
    begin (remembered_tables idempotency_key order_id response t).
Proof.
  unfold remembered, remembered_tables. by destruct (truthy idempotency_key).
Qed.

Lemma remembered_tables_frame (idempotency_key : option string)
    (order_id : uuid) (response : JSONDict) (t : Tables) :
  let t' := remembered_tables idempotency_key order_id response t in
  books t' = books t ∧ orders t' = orders t ∧ order_items t' = order_items t ∧
  idempotency_keys t `prefix_of` idempotency_keys t' ∧
  (idempotency_keys_pk t → idempotency_keys_pk t').
Proof.
  unfold remembered_tables. destruct (truthy idempotency_key) as [key|]; simpl.
  - destruct (insert_idempotency_frame
                (mkIdempotencyKey key order_id response) t) as (-> & -> & ->).
    repeat split; [apply insert_idempotency_prefix | apply insert_idempotency_pk].
  - done.
Qed.

(** A call that starts with nothing pending ends with nothing pending; it
    keeps every idempotency row in place, keeps the line items, and moves
    order rows by [order_step] only. *)
Lemma confirm_order_begin (str : uuid → string)
    (isoformat : datetime → string) (t : Tables) (order_id : uuid)
    (idempotency_key : option string) :
  ∃ o t',
    confirm_order str isoformat order_id idempotency_key (begin t) =
      (o, begin t') ∧
    idempotency_keys t `prefix_of` idempotency_keys t' ∧
    (idempotency_keys_pk t → idempotency_keys_pk t') ∧
    order_items t' = order_items t ∧
    (∀ oid a, orders t !! oid = Some a →
              ∃ b, orders t' !! oid = Some b ∧ order_step order_id oid a b).
Proof.
  assert (∀ oid a, orders t !! oid = Some a →
                   ∃ b, orders t !! oid = Some b ∧ order_step order_id oid a b)
    as Hsame.
  { intros oid a Ha. exists a. repeat split; [done | by left]. }
  destruct (cached idempotency_key t) as [c|] eqn:Hc.
  { exists (Return (idem_response c)), t.
    split; [by apply confirm_order_hit | done]. }
  rewrite confirm_order_miss by done. simpl.
  destruct (orders t !! order_id) as [order|] eqn:Horder.
  2: { eexists _, t. split; [reflexivity | done]. }
  destruct (String.eqb_spec (order_status order) "DRAFT") as [Hdraft|Hsettled];
    simpl.
  - destruct (decrement_items_cases str (items_of t order_id) [] (begin t))
      as [[shortages ->]|(db' & -> & Hcm)].
    2: { simpl in Hcm. rewrite Hcm. eexists _, t. split; [reflexivity | done]. }
    destruct shortages as [|s shortages]; simpl.
    2: { eexists _, t. split; [reflexivity | done]. }
    rewrite remembered_begin. eexists _, _. split; [reflexivity|].
    match goal with
    | |- context [remembered_tables ?k ?i ?r ?u] =>
        destruct (remembered_tables_frame k i r u) as (_ & -> & -> & Hpre & Hpk)
    end.
    simpl in *.
    destruct (foldl_apply_line_frame t (items_of t order_id)) as (Ho & Hi & Hk).
    rewrite Hk in *. unfold idempotency_keys_pk in *. simpl in *.
    rewrite Hk in Hpk. rewrite Ho, Hi.
    repeat split; try done.
    intros oid a Ha. destruct (decide (oid = order_id)) as [->|Hne].
    + rewrite lookup_alter_eq, Ha. simpl. eexists. split; [reflexivity|].
      split; [done|]. right. repeat split. congruence.
    + rewrite lookup_alter_ne by done. exists a. repeat split; [done | by left].
  - rewrite remembered_begin. eexists _, _. split; [reflexivity|].
    match goal with
    | |- context [remembered_tables ?k ?i ?r ?u] =>
        destruct (remembered_tables_frame k i r u) as (_ & -> & -> & Hpre & Hpk)
    end.
    done.
Qed.

(** ** Orders that are no longer DRAFT *)

(** C6, as amended: for an order whose status is not DRAFT, with no record
    for the supplied key, [confirm_order] returns the order's id, current
    status and creation time, leaves [books], [orders] and [order_items]
    untouched, and stores the response under the key when the key is a
    non-empty string; an absent or empty key stores nothing. *)
Theorem confirm_order_settled (str : uuid → string)
    (isoformat : datetime → string) (t : Tables) (order_id : uuid)
    (idempotency_key : option string) (order : Order) :
  (∀ key, idempotency_key = Some key →
          ∀ r, r ∈ idempotency_keys t → idem_id r ≠ key) →
  orders t !! order_id = Some order →
  order_status order ≠ "DRAFT" →
  let response :=
    response_of str isoformat order_id (order_status order)
                (order_created_at order) in
  confirm_order str isoformat order_id idempotency_key (begin t) =
    (Return response,
     begin (match truthy idempotency_key with
            | Some key =>
                set_idempotency_keys
                  (idempotency_keys t ++ [mkIdempotencyKey key order_id response])
                  t
            | None => t
            end)).
Proof.
  intros Hno Horder Hsettled response.
  pose proof (no_record_cached _ _ Hno) as Hmiss.
  rewrite confirm_order_miss by done. simpl. rewrite Horder.
  destruct (String.eqb_spec (order_status order) "DRAFT") as [E|_]; [done|].
  simpl. rewrite remembered_begin. unfold remembered_tables, cached in *.
  destruct (truthy idempotency_key) as [key|]; [|done].
  by rewrite (insert_idempotency_fresh (mkIdempotencyKey key order_id _) t).
Qed.

(** ** The idempotency lookup comes first *)

Lemma truthy_nonempty (idempotency_key : option string) (key : string) :
  truthy idempotency_key = Some key → key ≠ "".
Proof. intros Hk. by apply truthy_Some in Hk as [_ Hne]. Qed.

Lemma remembered_tables_no_empty_key (idempotency_key : option string)
    (order_id : uuid) (response : JSONDict) (t : Tables) :
  no_empty_key t →
  no_empty_key (remembered_tables idempotency_key order_id response t).
Proof.
  intros Hno. unfold remembered_tables.
  destruct (truthy idempotency_key) as [key|] eqn:Hk; [|done].
  apply truthy_nonempty in Hk. unfold insert_idempotency.
  destruct (existsb _ _); [done|].
  intros r Hr. simpl in Hr. apply elem_of_app in Hr as [Hr|Hr]; [by apply Hno|].
  apply list_elem_of_singleton in Hr. by subst r.
Qed.

Lemma insert_order_items_idempotency_keys (id : uuid)
    (items : list OrderItemCreate) :
  ∀ t t', insert_order_items id items t = inr t' →
          idempotency_keys t' = idempotency_keys t.
Proof.
  induction items as [|it items IH]; intros t t'; simpl.
  - by intros [= <-].
  - destruct (insert_order_item _ t) as [x|t1] eqn:Hrow; [done|].
    intros Hrest. rewrite (IH _ _ Hrest).
    unfold insert_order_item in Hrow.
    destruct (negb _); [done|]. destruct (bool_decide _); [done|].
    destruct (_ && _); [|done]. by injection Hrow as <-.
Qed.

(** [create_order] ends with nothing pending and never touches
    [idempotency_keys]. *)
Lemma create_order_idempotency_keys (id : uuid) (created_at : datetime)
    (data : OrderCreate) (t : Tables) :
  ∃ o t', create_order id created_at data (begin t) = (o, begin t') ∧
          idempotency_keys t' = idempotency_keys t.
Proof.
  unfold create_order, try_except, bind, create_draft, insert_order. simpl.
  destruct (orders t !! id) as [o|]; [by eexists _, t|].
  destruct (insert_order_items id (create_items data) _) as [[|]|t2] eqn:Hrows;
    [by eexists _, t | by eexists _, t |].
  apply insert_order_items_idempotency_keys in Hrows.
  eexists _, t2. split; [reflexivity | done].
Qed.

(** C10: when a record is stored under the supplied key, [confirm_order]
    returns the stored response, commits nothing and leaves the session
    exactly as it was, whatever [order_id] is and whatever [orders] and
    [books] hold (nothing is assumed of them, so the answer cannot depend on
    them): no 404 is raised for an unknown order.  This holds in every store
    without a row under the empty key, and the code keeps the store so:
    [confirm_order] only stores under non-empty keys and [create_order]
    stores no key at all. *)
Theorem confirm_order_cached_first (str : uuid → string)
    (isoformat : datetime → string) (db : Session) (order_id : uuid)
    (r : IdempotencyKey) :
  idempotency_keys_pk (pending db) →
  no_empty_key (pending db) →
  r ∈ idempotency_keys (pending db) →
  confirm_order_traced str isoformat order_id (Some (idem_id r)) db =
    (Return (idem_response r), db, []) ∧
  (∀ t order_id' idempotency_key,
     no_empty_key t →
     ∃ o t', confirm_order str isoformat order_id' idempotency_key (begin t) =
               (o, begin t') ∧
             no_empty_key t') ∧
  (∀ t id created_at data,
     no_empty_key t →
     ∃ o t', create_order id created_at data (begin t) = (o, begin t') ∧
             no_empty_key t').
Proof.
  intros Hpk Hno Hin. split; [|split].
  - apply confirm_order_traced_hit.
    unfold cached. rewrite (proj2 (truthy_Some _ (idem_id r))).
    + by apply select_idempotency_pk.
    + split; [done | by apply Hno].
  - clear. intros t order_id idempotency_key Hno.
    destruct (cached idempotency_key t) as [c|] eqn:Hc.
    { exists (Return (idem_response c)), t.
      split; [by apply confirm_order_hit | done]. }
    rewrite confirm_order_miss by done. simpl.
    destruct (orders t !! order_id) as [order|].
    2: { eexists _, t. split; [reflexivity | done]. }
    destruct (negb (String.eqb (order_status order) "DRAFT")).
    { rewrite remembered_begin. eexists _, _. split; [reflexivity|].
      by apply remembered_tables_no_empty_key. }
    destruct (decrement_items_cases str (items_of t order_id) [] (begin t))
      as [[shortages ->]|(db' & -> & Hcm)].
    2: { simpl in Hcm. rewrite Hcm. eexists _, t. split; [reflexivity | done]. }
    destruct shortages as [|s shortages]; simpl.
    2: { eexists _, t. split; [reflexivity | done]. }
    rewrite remembered_begin. eexists _, _. split; [reflexivity|].
    apply remembered_tables_no_empty_key. unfold no_empty_key. simpl.
    destruct (foldl_apply_line_frame t (items_of t order_id)) as (_ & _ & ->).
    done.
  - clear. intros t id created_at data Hno.
    destruct (create_order_idempotency_keys id created_at data t)
      as (o & t' & Hrun & Hkeys).
    exists o, t'. split; [done|]. unfold no_empty_key. by rewrite Hkeys.
Qed.

(** ** First writer wins *)

(** C7: with one row per key to start with and a row [r] stored, saving
    under [r]'s key returns normally and changes nothing; saving under any
    key, and a whole [confirm_order] call, keep one row per key, keep the
    stored rows in place, and the row found under [r]'s key is still [r]. *)
Theorem idempotency_first_writer_wins (str : uuid → string)
    (isoformat : datetime → string) (t : Tables) (r : IdempotencyKey)
    (key' : string) (order_id' : uuid) (response' : JSONDict)
    (order_id : uuid) (idempotency_key : option string) :
  idempotency_keys_pk t →
  r ∈ idempotency_keys t →
  save_idempotency (idem_id r) order_id' response' (begin t) =
    (Return tt, begin t) ∧
  (∃ t', save_idempotency key' order_id' response' (begin t) =
           (Return tt, {| committed := t; pending := t' |}) ∧
         idempotency_keys_pk t' ∧
         idempotency_keys t `prefix_of` idempotency_keys t' ∧
         select_idempotency (idem_id r) t' = Some r) ∧
  (∃ o t', confirm_order str isoformat order_id idempotency_key (begin t) =
             (o, begin t') ∧
           idempotency_keys_pk t' ∧
           idempotency_keys t `prefix_of` idempotency_keys t' ∧
           select_idempotency (idem_id r) t' = Some r).
Proof.
  intros Hpk Hin.
  assert (∀ t', idempotency_keys_pk t' →
                idempotency_keys t `prefix_of` idempotency_keys t' →
                select_idempotency (idem_id r) t' = Some r) as Hkept.
  { intros t' Hpk' Hpre. apply select_idempotency_pk; [done|].
    by apply (elem_of_prefix _ _ _ Hin). }
  split; [|split].
  - unfold save_idempotency, execute_dml. simpl.
    rewrite insert_idempotency_conflict; [done|].
    simpl. rewrite select_idempotency_pk; eauto.
  - eexists. split; [by unfold save_idempotency, execute_dml|].
    pose proof (insert_idempotency_pk
                  (mkIdempotencyKey key' order_id' response') t Hpk).
    pose proof (insert_idempotency_prefix
                  (mkIdempotencyKey key' order_id' response') t).
    repeat split; auto.
  - destruct (confirm_order_begin str isoformat t order_id idempotency_key)
      as (o & t' & Hrun & Hpre & Hpk' & _).
    exists o, t'. specialize (Hpk' Hpk). auto.
Qed.

(** ** Status transitions *)

(** C9: whatever order and key [confirm_order] is called with, every stored
    order is still stored afterwards with its creation time; an order that
    was not DRAFT is unchanged, and the only change of status there can be
    is DRAFT to CONFIRMED, on the order of the call. *)
Theorem order_status_monotonic (str : uuid → string)
    (isoformat : datetime → string) (t : Tables) (order_id : uuid)
    (idempotency_key : option string) (oid : uuid) (a : Order) :
  orders t !! oid = Some a →
  ∃ o t' b,
    confirm_order str isoformat order_id idempotency_key (begin t) =
      (o, begin t') ∧
    orders t' !! oid = Some b ∧
    order_created_at b = order_created_at a ∧
    (order_status a ≠ "DRAFT" → b = a) ∧
    (order_status b ≠ order_status a →
     oid = order_id ∧ order_status a = "DRAFT" ∧ order_status b = "CONFIRMED").
Proof.
  intros Ha.
  destruct (confirm_order_begin str isoformat t order_id idempotency_key)
    as (o & t' & Hrun & _ & _ & _ & Horders).
  destruct (Horders oid a Ha) as (b & Hb & Hca & Hstep).
  exists o, t', b. repeat split; try done.
  - intros Hsettled. destruct Hstep as [->|(_ & Hdraft & _)]; done.
  - destruct Hstep as [->|(? & ? & ?)]; done.
  - destruct Hstep as [->|(? & ? & ?)]; done.
  - destruct Hstep as [->|(? & ? & ?)]; done.
Qed.

(** ** Concrete scenarios *)

Import Scenario.

Lemma store_pk : order_items_pk store.
Proof. apply (bool_decide_unpack _). vm_compute. exact I. Defined.

(** Scenario A. *)
Lemma try_decrement_sufficient_witness :
  try_decrement_book_optimistic 1 3 (begin store) =
    (Return (true, 5),
     {| committed := store;
        pending := set_books (<[1%N := mkBook (5 - 3) (1 + 1)]> (books store))
                             store |}).
Proof.
  apply (try_decrement_sufficient (begin store) 1 5 1 3);
    [reflexivity | lia | unfold int4_max; lia | unfold int4_min, int4_max; lia].
Defined.

(** The claim C3 as stated fails at the last version a 32-bit column holds:
    product 1 has a stock of 5 and is asked for 3, yet the UPDATE cannot
    store version 2147483648, the call raises [DataError] and the item keeps
    its stock and its version. *)
Lemma try_decrement_sufficient_counterexample :
  books store_max !! 1%N = Some (mkBook 5 2147483647) ∧
  3 ≤ 5 ∧
  try_decrement_book_optimistic 1 3 (begin store_max) =
    (Fault DataError, begin store_max) ∧
  ∀ db', try_decrement_book_optimistic 1 3 (begin store_max) ≠
           (Return (true, 5), db').
Proof.
  assert (try_decrement_book_optimistic 1 3 (begin store_max) =
            (Fault DataError, begin store_max)) as Hrun by reflexivity.
  split; [reflexivity|]. split; [lia|]. split; [exact Hrun|].
  intros db'. rewrite Hrun. discriminate.
Qed.

Lemma try_decrement_insufficient_witness :
  try_decrement_book_optimistic 1 10 (begin store) =
    (Return (false, 5), begin store).
Proof.
  apply (try_decrement_insufficient (begin store) 1 5 1 10); [reflexivity | lia].
Defined.

Lemma try_decrement_missing_witness :
  try_decrement_book_optimistic 7 1 (begin store) =
    (Return (false, 0), begin store).
Proof.
  apply (try_decrement_missing (begin store) 7 1). reflexivity.
Defined.

(** Scenario C: order 13 asks for 10 of a stock of 5. *)
Example confirm_order_scenario_C :
  confirm_order str isoformat 13 None (begin store) =
    (Raise (mkHTTPException 409
              (JDict [("shortages",
                       JList [JDict [("product_id", JStr "1");
                                     ("requested", JInt 10);
                                     ("available", JInt 5)]])])),
     begin store).
Proof. reflexivity. Qed.

(** Scenario D: only the line on product 2 is short, and product 1 keeps its
    stock. *)
Lemma confirm_order_insufficient_stock_witness :
  confirm_order_traced str isoformat 10 None (begin store) =
    (Raise (mkHTTPException 409
              (JDict [("shortages",
                       JList [JDict [("product_id", JStr "2");
                                     ("requested", JInt 1);
                                     ("available", JInt 0)]])])),
     begin store, []).
Proof.
  apply (confirm_order_insufficient_stock str isoformat store 10 None
           (mkOrder "DRAFT" 1000)).
  - exact store_pk.
  - reflexivity.
  - reflexivity.
  - reflexivity.
  - exists (mkOrderItem 10 2 1). split; [|reflexivity].
    apply list_elem_of_filter. split; [reflexivity|].
    apply elem_of_cons. right. apply elem_of_cons. by left.
  - intros it b Hit Hb Hq.
    change (items_of store 10) with [mkOrderItem 10 1 2; mkOrderItem 10 2 1]
      in Hit.
    apply elem_of_cons in Hit as [->|Hit];
      [|apply list_elem_of_singleton in Hit as ->];
      vm_compute in Hb; injection Hb as <-; unfold int4_min, int4_max;
      simpl in *; lia.
Defined.

(** The claim C1 as stated fails in two ways.  When a record is stored
    under the key: order 13 is DRAFT and its line asks for 10 of a stock of
    5, yet the call returns the response stored under "k1" and raises
    nothing.  And when another line overflows: in [store_max] order 10 is
    DRAFT and its line on product 2 is short, yet the UPDATE for its line on
    product 1 cannot store the next version, and the call raises 500
    "confirm failed" with no shortage list. *)
Lemma confirm_order_insufficient_stock_counterexample :
  (orders store_k1 !! 13%N = Some (mkOrder "DRAFT" 1003) ∧
   mkOrderItem 13 1 10 ∈ items_of store_k1 13 ∧
   short store_k1 (mkOrderItem 13 1 10) = true ∧
   confirm_order str isoformat 13 (Some "k1") (begin store_k1) =
     (Return response11, begin store_k1) ∧
   ∀ e db', confirm_order str isoformat 13 (Some "k1") (begin store_k1) ≠
              (Raise e, db')) ∧
  (orders store_max !! 10%N = Some (mkOrder "DRAFT" 1000) ∧
   items_of store_max 10 = [mkOrderItem 10 1 2; mkOrderItem 10 2 1] ∧
   short store_max (mkOrderItem 10 2 1) = true ∧
   idempotency_keys store_max = [] ∧
   confirm_order str isoformat 10 None (begin store_max) =
     (Raise (mkHTTPException 500 (JStr "confirm failed")), begin store_max)).
Proof.
  assert (confirm_order str isoformat 13 (Some "k1") (begin store_k1) =
            (Return response11, begin store_k1)) as Hrun by reflexivity.
  split.
  - repeat split; try reflexivity.
    + apply list_elem_of_filter. split; [reflexivity|].
      do 3 (apply elem_of_cons; right). apply elem_of_cons. by left.
    + intros e db'. rewrite Hrun. discriminate.
  - repeat split; reflexivity.
Qed.

(** Scenario B: order 12 asks for 3 of a stock of 5; the key "k1" is
    free. *)
Lemma confirm_order_success_witness :
  ∃ t1 t',
    confirm_order_traced str isoformat 12 (Some "k1") (begin store) =
      (Return [("id", JStr "12"); ("status", JStr "CONFIRMED");
               ("created_at", JStr "1002")],
       begin t', [t1; t']) ∧
    books t1 !! 1%N = Some (mkBook 2 2) ∧
    orders t1 !! 12%N = Some (mkOrder "CONFIRMED" 1002).
Proof.
  destruct (confirm_order_success str isoformat store 12 (Some "k1")
              (mkOrder "DRAFT" 1002))
    as (t1 & t' & Hrun & Hlines & _ & Horders & _).
  - exact store_pk.
  - reflexivity.
  - reflexivity.
  - reflexivity.
  - intros it Hit. change (items_of store 12) with [mkOrderItem 12 1 3] in Hit.
    apply list_elem_of_singleton in Hit as ->.
    exists (mkBook 5 1). split; [reflexivity|].
    unfold int4_min, int4_max. simpl. lia.
  - exists t1, t'. split; [exact Hrun|]. split.
    + apply (Hlines (mkOrderItem 12 1 3) (mkBook 5 1)); [|reflexivity].
      change (items_of store 12) with [mkOrderItem 12 1 3].
      by apply list_elem_of_singleton.
    + rewrite Horders. reflexivity.
Defined.

(** The claim C4 as stated fails in two ways.  When a record is stored
    under the key: order 12 is DRAFT and its only line is satisfiable, yet
    the call returns the response stored under "k1" for order 11, decrements
    nothing and leaves order 12 DRAFT.  And when a decrement overflows: in
    [store_max] the same order, confirmed without a key, raises 500 "confirm
    failed", decrements nothing and stays DRAFT. *)
Lemma confirm_order_success_counterexample :
  (orders store_k1 !! 12%N = Some (mkOrder "DRAFT" 1002) ∧
   items_of store_k1 12 = [mkOrderItem 12 1 3] ∧
   books store_k1 !! 1%N = Some (mkBook 5 1) ∧
   confirm_order str isoformat 12 (Some "k1") (begin store_k1) =
     (Return [("id", JStr "11"); ("status", JStr "CONFIRMED");
              ("created_at", JStr "1001")],
      begin store_k1)) ∧
  (orders store_max !! 12%N = Some (mkOrder "DRAFT" 1002) ∧
   items_of store_max 12 = [mkOrderItem 12 1 3] ∧
   books store_max !! 1%N = Some (mkBook 5 2147483647) ∧
   idempotency_keys store_max = [] ∧
   confirm_order str isoformat 12 None (begin store_max) =
     (Raise (mkHTTPException 500 (JStr "confirm failed")), begin store_max)).
Proof. repeat split; reflexivity. Qed.

(** Scenario E. *)
Lemma confirm_order_twice_witness :
  let db1 := (confirm_order str isoformat 12 (Some "k1") (begin store)).2 in
  confirm_order str isoformat 12 (Some "k1") db1 =
    (Return [("id", JStr "12"); ("status", JStr "CONFIRMED");
             ("created_at", JStr "1002")],
     db1).
Proof.
  apply (confirm_order_twice str isoformat (begin store) 12 (Some "k1")).
  - intros key _ r Hr. by apply elem_of_nil in Hr.
  - vm_compute. reflexivity.
Defined.

Lemma confirm_order_settled_witness :
  confirm_order str isoformat 14 (Some "k2") (begin store) =
    (Return [("id", JStr "14"); ("status", JStr "CANCELLED");
             ("created_at", JStr "1004")],
     begin (set_idempotency_keys
              [mkIdempotencyKey "k2" 14
                 [("id", JStr "14"); ("status", JStr "CANCELLED");
                  ("created_at", JStr "1004")]]
              store)).
Proof.
  apply (confirm_order_settled str isoformat store 14 (Some "k2")
           (mkOrder "CANCELLED" 1004)).
  - intros key _ r Hr. by apply elem_of_nil in Hr.
  - reflexivity.
  - discriminate.
Defined.

(** The claim C6 as stated fails for the empty key: order 11 is CONFIRMED,
    no record exists, the key [""] is supplied, and the call stores
    nothing. *)
Lemma confirm_order_settled_counterexample :
  orders store !! 11%N = Some (mkOrder "CONFIRMED" 1001) ∧
  idempotency_keys store = [] ∧
  ∃ db',
    confirm_order str isoformat 11 (Some "") (begin store) =
      (Return response11, db') ∧
    idempotency_keys (committed db') = [] ∧
    idempotency_keys (pending db') = [].
Proof. repeat split. eexists. repeat split. Qed.

(** Order 99 does not exist, and the response stored under "k1" is
    returned. *)
Lemma confirm_order_cached_first_witness :
  orders store_k1 !! 99%N = None ∧
  confirm_order_traced str isoformat 99 (Some "k1") (begin store_k1) =
    (Return response11, begin store_k1, []).
Proof.
  split; [reflexivity|].
  apply (confirm_order_cached_first str isoformat (begin store_k1) 99
           (mkIdempotencyKey "k1" 11 response11)).
  - apply (bool_decide_unpack _). vm_compute. exact I.
  - intros r Hr. apply list_elem_of_singleton in Hr. by subst r.
  - by apply list_elem_of_singleton.
Defined.

Lemma idempotency_first_writer_wins_witness :
  save_idempotency "k1" 12 [] (begin store_k1) = (Return tt, begin store_k1) ∧
  ∃ o t', confirm_order str isoformat 12 (Some "k3") (begin store_k1) =
            (o, begin t') ∧
          select_idempotency "k1" t' =
            Some (mkIdempotencyKey "k1" 11 response11).
Proof.
  destruct (idempotency_first_writer_wins str isoformat store_k1
              (mkIdempotencyKey "k1" 11 response11) "k3" 12 [] 12 (Some "k3"))
    as (Hsave & _ & o & t' & Hrun & _ & _ & Hsel).
  - apply (bool_decide_unpack _). vm_compute. exact I.
  - by apply list_elem_of_singleton.
  - split; [exact Hsave|]. exists o, t'. by split.
Defined.

Lemma order_status_monotonic_witness :
  ∃ o t' b,
    confirm_order str isoformat 12 None (begin store) = (o, begin t') ∧
    orders t' !! 11%N = Some b ∧ b = mkOrder "CONFIRMED" 1001.
Proof.
  destruct (order_status_monotonic str isoformat store 12 None 11
              (mkOrder "CONFIRMED" 1001))
    as (o & t' & b & Hrun & Hb & _ & Hsame & _).
  - reflexivity.
  - exists o, t', b. repeat split; [exact Hrun | exact Hb |].
    apply Hsame. discriminate.
Defined.

(** * Further properties of the code *)

(** ** The stock ledger alone *)

(** X1: whatever it is asked, [try_decrement_book_optimistic] commits
    nothing and touches no order, line item or idempotency row, and no book
    other than the one it is called for. *)
Theorem try_decrement_frame (db : Session) (book_id : uuid) (qty : Z) :
  let db' := (try_decrement_book_optimistic book_id qty db).2 in
  committed db' = committed db ∧
  orders (pending db') = orders (pending db) ∧
  order_items (pending db') = order_items (pending db) ∧
  idempotency_keys (pending db') = idempotency_keys (pending db) ∧
  ∀ other, other ≠ book_id →
           books (pending db') !! other = books (pending db) !! other.
Proof.
  pose proof (try_decrement_line db (mkOrderItem 0 book_id qty)) as Hline.
  simpl in Hline. rewrite Hline.
  destruct (fits (pending db) (mkOrderItem 0 book_id qty)); simpl; [|done].
  destruct (apply_line_frame (pending db) (mkOrderItem 0 book_id qty))
    as (-> & -> & ->).
  repeat split. intros other Hne.
  by apply (apply_line_books_ne _ (mkOrderItem 0 book_id qty)).
Qed.

(** X2: no call can drive a stock below zero: if every stock is
    non-negative before [try_decrement_book_optimistic], whatever the book
    and the quantity (zero and negative ones too), every stock is
    non-negative after it. *)
Theorem try_decrement_stock_nonneg (db : Session) (book_id : uuid) (qty : Z) :
  books_stock_nonneg (pending db) →
  books_stock_nonneg (pending (try_decrement_book_optimistic book_id qty db).2).
Proof.
  intros Hnn.
  pose proof (try_decrement_line db (mkOrderItem 0 book_id qty)) as Hline.
  simpl in Hline. rewrite Hline.
  destruct (fits (pending db) (mkOrderItem 0 book_id qty)); simpl; [|done].
  by apply apply_line_stock_nonneg.
Qed.


(** X20: when the guarded UPDATE would store a stock or a version outside
    the 32-bit range of its column (a version already at 2147483647, or a
    negative quantity that lifts the stock above it),
    [try_decrement_book_optimistic] returns no pair at all: the UPDATE
    raises [DataError] and the book keeps its stock and its version. *)
Theorem try_decrement_overflow (db : Session) (book_id : uuid) (q v r : Z) :
  books (pending db) !! book_id = Some (mkBook q v) →
  r ≤ q →
  int4_max < q - r ∨ v + 1 < int4_min ∨ int4_max < v + 1 →
  try_decrement_book_optimistic book_id r db = (Fault DataError, db).
Proof.
  intros Hb Hr Hout. run. unfold select_version_stock. rewrite Hb. simpl.
  destruct (Z.ltb_spec q r) as [Hlt|_]; [lia|].
  assert (in_int4 (q - r) && in_int4 (v + 1) = false) as Hfit.
  { destruct Hout as [Hs|Hv].
    - rewrite (in_int4_false (q - r)); [done | by right].
    - by rewrite (in_int4_false (v + 1)), andb_false_r. }
  pose proof (update_book_overflow _ _ _ _ Hb Hr Hfit) as Hupd.
  simpl in Hupd. by rewrite Hupd.
Qed.

(** ** The idempotency store alone *)

Lemma select_idempotency_insert_ne (row : IdempotencyKey) (key : string)
    (t : Tables) :
  idem_id row ≠ key →
  select_idempotency key (insert_idempotency row t) = select_idempotency key t.
Proof.
  intros Hne. unfold insert_idempotency.
  destruct (existsb _ _); [done|].
  unfold select_idempotency. simpl.
  induction (idempotency_keys t) as [|r rows IH]; simpl.
  - by destruct (String.eqb_spec (idem_id row) key).
  - by destruct (String.eqb (idem_id r) key).
Qed.

(** X4: saving then reading a key gives back the row saved when the key was
    free, and the row that was already there otherwise. *)
Theorem save_then_get_idempotency (db : Session) (key : string)
    (order_id : uuid) (response : JSONDict) :
  let db' := (save_idempotency key order_id response db).2 in
  get_idempotency key db' =
    (Return (Some (match select_idempotency key (pending db) with
                   | Some stored => stored
                   | None => mkIdempotencyKey key order_id response
                   end)),
     db').
Proof.
  unfold save_idempotency, get_idempotency, execute_dml, execute_select. simpl.
  f_equal. f_equal.
  destruct (select_idempotency key (pending db)) as [stored|] eqn:Hsel.
  - rewrite insert_idempotency_conflict; [done|]. simpl. rewrite Hsel. eauto.
  - by apply (insert_idempotency_select (mkIdempotencyKey key order_id response)).
Qed.

(** X5: saving under one key never changes what is read under another. *)
Theorem save_idempotency_other_key (db : Session) (key key' : string)
    (order_id : uuid) (response : JSONDict) :
  key ≠ key' →
  (get_idempotency key' (save_idempotency key order_id response db).2).1 =
  (get_idempotency key' db).1.
Proof.
  intros Hne.
  unfold save_idempotency, get_idempotency, execute_dml, execute_select. simpl.
  f_equal.
  by apply (select_idempotency_insert_ne (mkIdempotencyKey key order_id response)).
Qed.

(** ** Whole calls of [confirm_order] *)

(** The rows a call for [order_id] can end with, from a session with nothing
    pending: those it started with, or those with every line of the order
    run through the ledger and the order CONFIRMED; in both cases with
    possibly one more idempotency row. *)
Lemma confirm_order_shape (str : uuid → string)
    (isoformat : datetime → string) (t : Tables) (order_id : uuid)
    (idempotency_key : option string) :
  ∃ o t',
    confirm_order str isoformat order_id idempotency_key (begin t) =
      (o, begin t') ∧
    order_items t' = order_items t ∧
    idempotency_keys t `prefix_of` idempotency_keys t' ∧
    (idempotency_keys_pk t → idempotency_keys_pk t') ∧
    ((books t' = books t ∧ orders t' = orders t ∧
      ((∃ e, o = Raise e) → t' = t)) ∨
     (books t' = books (foldl apply_line t (items_of t order_id)) ∧
      orders t' = orders (with_status "CONFIRMED" order_id t) ∧
      (∃ order, orders t !! order_id = Some order ∧
                order_status order = "DRAFT") ∧
      ∃ response, o = Return response)).
Proof.
  assert (∀ o, books t = books t ∧ orders t = orders t ∧
               ((∃ e : HTTPException, o = @Raise JSONDict e) → t = t))
    as Hsame by done.
  destruct (cached idempotency_key t) as [c|] eqn:Hc.
  { exists (Return (idem_response c)), t.
    split; [by apply confirm_order_hit|].
    do 3 (split; [done|]). by left. }
  rewrite confirm_order_miss by done. simpl.
  destruct (orders t !! order_id) as [order|] eqn:Horder.
  2: { eexists _, t. split; [reflexivity|]. do 3 (split; [done|]). by left. }
  destruct (String.eqb_spec (order_status order) "DRAFT") as [Hdraft|Hsettled];
    simpl.
  - destruct (decrement_items_cases str (items_of t order_id) [] (begin t))
      as [[shortages ->]|(db' & -> & Hcm)].
    2: { simpl in Hcm. rewrite Hcm. eexists _, t. split; [reflexivity|].
         do 3 (split; [done|]). by left. }
    destruct shortages as [|s shortages]; simpl.
    2: { eexists _, t. split; [reflexivity|]. do 3 (split; [done|]). by left. }
    rewrite remembered_begin. eexists _, _. split; [reflexivity|].
    match goal with
    | |- context [remembered_tables ?k ?i ?r ?u] =>
        destruct (remembered_tables_frame k i r u) as (-> & -> & -> & Hpre & Hpk)
    end.
    simpl in *.
    destruct (foldl_apply_line_frame t (items_of t order_id)) as (Ho & Hi & Hk).
    unfold idempotency_keys_pk in *. simpl in *. rewrite Hk in *.
    do 3 (split; [done|]).
    right. rewrite Ho. split; [done|]. split; [done|]. split; eauto.
  - rewrite remembered_begin. eexists _, _. split; [reflexivity|].
    match goal with
    | |- context [remembered_tables ?k ?i ?r ?u] =>
        destruct (remembered_tables_frame k i r u) as (-> & -> & -> & Hpre & Hpk)
    end.
    do 3 (split; [done|]). left. split; [done|]. split; [done|].
    by intros [e ?].
Qed.

(** X6: with no record found for the key, an order id that is not stored
    raises 404 "order not found" and the session is left exactly as it
    was. *)
Theorem confirm_order_not_found (str : uuid → string)
    (isoformat : datetime → string) (db : Session) (order_id : uuid)
    (idempotency_key : option string) :
  cached idempotency_key (pending db) = None →
  orders (pending db) !! order_id = None →
  confirm_order str isoformat order_id idempotency_key db =
    (Raise (mkHTTPException 404 (JStr "order not found")), db).
Proof.
  intros Hmiss Hnone. rewrite confirm_order_miss by done. by rewrite Hnone.
Qed.

(** X7: a call that raises has persisted nothing.  From a session with
    nothing pending, whenever [confirm_order] raises, the session is back
    as it started, and the exception is the 404 of an unknown order, or a
    409 on an order that is DRAFT and stays DRAFT, or the 500 "confirm
    failed" that a database error inside the [try] block is turned into,
    again on an order that stays DRAFT.  The 400 of the [IntegrityError]
    clause never comes out. *)
Theorem confirm_order_raise_unchanged (str : uuid → string)
    (isoformat : datetime → string) (t : Tables) (order_id : uuid)
    (idempotency_key : option string) (e : HTTPException) (db' : Session) :
  confirm_order str isoformat order_id idempotency_key (begin t) =
    (Raise e, db') →
  db' = begin t ∧
  ((e = mkHTTPException 404 (JStr "order not found") ∧
    orders t !! order_id = None) ∨
   (status_code e = 409 ∧
    ∃ order, orders t !! order_id = Some order ∧
             order_status order = "DRAFT") ∨
   (e = mkHTTPException 500 (JStr "confirm failed") ∧
    ∃ order, orders t !! order_id = Some order ∧
             order_status order = "DRAFT")).
Proof.
  intros Hrun.
  destruct (cached idempotency_key t) as [c|] eqn:Hc.
  { by rewrite (confirm_order_hit _ _ _ _ _ c) in Hrun. }
  rewrite confirm_order_miss in Hrun by done. simpl in Hrun.
  destruct (orders t !! order_id) as [order|] eqn:Horder.
  2: { injection Hrun as <- <-. split; [done|]. by left. }
  destruct (String.eqb_spec (order_status order) "DRAFT") as [Hdraft|Hsettled];
    simpl in Hrun; [|done].
  destruct (decrement_items_cases str (items_of t order_id) [] (begin t))
    as [[shortages Hloop]|(db1 & Hloop & Hcm)]; rewrite Hloop in Hrun.
  - destruct shortages as [|s shortages]; [done|].
    simpl in Hrun. injection Hrun as <- <-. split; [done|]. right. left. eauto.
  - simpl in Hcm. rewrite Hcm in Hrun. injection Hrun as <- <-.
    split; [done|]. right. right. eauto.
Qed.

(** With distinct products, the loop stops with [DataError] as soon as one
    line does not fit. *)
Lemma decrement_items_fault (str : uuid → string) (items : list OrderItem) :
  NoDup (item_product_id <$> items) →
  ∀ (shortages : list JSONValue) (db : Session),
    (∃ it, it ∈ items ∧ fits (pending db) it = false) →
    ∃ db', decrement_items str items shortages db = (Fault DataError, db') ∧
           committed db' = committed db.
Proof.
  induction items as [|it items IH]; intros Hnd shortages db (it' & Hit' & Hno).
  - by apply elem_of_nil in Hit'.
  - simpl in Hnd. apply NoDup_cons in Hnd as [Hnotin Hnd].
    rewrite decrement_items_cons.
    destruct (fits (pending db) it) eqn:Hfit; [|by exists db].
    apply elem_of_cons in Hit' as [->|Hit']; [congruence|].
    match goal with
    | |- context [decrement_items str items ?s ?d] =>
        destruct (IH Hnd s d) as (db' & -> & Hcm)
    end; [|by exists db'].
    exists it'. split; [done|]. simpl.
    rewrite (fits_ext (pending db)); [done|].
    apply apply_line_books_ne. intros E. apply Hnotin.
    rewrite <- E. by apply list_elem_of_fmap_2.
Qed.

(** X21: a decrement that does not fit its columns ends the confirmation
    with a 500.  For a DRAFT order, with no idempotency record found for the
    key, if some line asks for no more than the stock of its product but its
    UPDATE would store a stock or a version outside the 32-bit range, the
    [DataError] is caught by [except Exception]: the call rolls back, raises
    500 "confirm failed", has committed nothing and leaves the session as it
    started, whatever the other lines are. *)
Theorem confirm_order_overflow (str : uuid → string)
    (isoformat : datetime → string) (t : Tables) (order_id : uuid)
    (idempotency_key : option string) (order : Order) :
  order_items_pk t →
  cached idempotency_key t = None →
  orders t !! order_id = Some order →
  order_status order = "DRAFT" →
  (∃ it b, it ∈ items_of t order_id ∧
           books t !! item_product_id it = Some b ∧
           item_qty it ≤ book_stock b ∧
           (int4_max < book_stock b - item_qty it ∨
            book_version b + 1 < int4_min ∨
            int4_max < book_version b + 1)) →
  confirm_order_traced str isoformat order_id idempotency_key (begin t) =
    (Raise (mkHTTPException 500 (JStr "confirm failed")), begin t, []).
Proof.
  intros Hpk Hmiss Horder Hdraft (it & b & Hit & Hb & Hq & Hout).
  rewrite confirm_order_traced_miss by done. simpl. rewrite Horder, Hdraft.
  simpl.
  destruct (decrement_items_fault str (items_of t order_id)
              (items_of_NoDup t order_id Hpk) [] (begin t))
    as (db' & -> & Hcm).
  - exists it. split; [done|]. unfold fits. simpl. rewrite Hb.
    destruct (Z.ltb_spec (book_stock b) (item_qty it)) as [Hlt|_]; [lia|].
    simpl. destruct Hout as [Hs|Hv].
    + rewrite (in_int4_false (book_stock b - item_qty it)); [done | by right].
    + by rewrite (in_int4_false (book_version b + 1)), andb_false_r.
  - simpl in Hcm. by rewrite Hcm.
Qed.

Lemma apply_line_is_Some (t : Tables) (it : OrderItem) (book_id : uuid) :
  is_Some (books (apply_line t it) !! book_id) ↔ is_Some (books t !! book_id).
Proof.
  unfold apply_line, decrement. destruct (short t it); simpl; [done|].
  destruct (decide (book_id = item_product_id it)) as [->|Hne].
  - rewrite lookup_alter_eq. by rewrite fmap_is_Some.
  - by rewrite lookup_alter_ne.
Qed.

Lemma foldl_apply_line_is_Some (items : list OrderItem) (t : Tables)
    (book_id : uuid) :
  is_Some (books (foldl apply_line t items) !! book_id) ↔
  is_Some (books t !! book_id).
Proof.
  revert t. induction items as [|it items IH]; intros t; simpl; [done|].
  rewrite IH. apply apply_line_is_Some.
Qed.

Lemma foldl_apply_line_stock_nonneg (items : list OrderItem) (t : Tables) :
  books_stock_nonneg t → books_stock_nonneg (foldl apply_line t items).
Proof.
  revert t. induction items as [|it items IH]; intros t Hnn; simpl; [done|].
  apply IH. by apply apply_line_stock_nonneg.
Qed.

(** X8: every constraint the models declare on the order tables survives a
    call: from committed rows that satisfy the primary keys, the foreign
    keys and the CHECKs on quantity, status and stock, [confirm_order] ends,
    whatever its arguments and its outcome, with nothing pending and
    committed rows that satisfy them again.  In particular no stock is ever
    negative. *)
Theorem confirm_order_constraints (str : uuid → string)
    (isoformat : datetime → string) (t : Tables) (order_id : uuid)
    (idempotency_key : option string) :
  constraints t →
  ∃ o t',
    confirm_order str isoformat order_id idempotency_key (begin t) =
      (o, begin t') ∧
    constraints t'.
Proof.
  intros (Hpk & Hfk & Hqty & Hstatus & Hnn & Hidem).
  destruct (confirm_order_shape str isoformat t order_id idempotency_key)
    as (o & t' & Hrun & Hitems & _ & Hidem' & Hcase).
  exists o, t'. split; [done|].
  unfold constraints, order_items_pk, order_items_fk, order_items_qty_positive,
    orders_status_check, books_stock_nonneg in *.
  rewrite Hitems.
  destruct Hcase as [(Hb & Ho & _)|(Hb & Ho & _ & _)]; rewrite Hb, Ho.
  - auto 10.
  - split; [done|]. split; [|split; [done|]; split; [|split; [|auto]]].
    + intros it Hit. destruct (Hfk it Hit) as [Horder Hbook]. split.
      * simpl. destruct (decide (item_order_id it = order_id)) as [E|Hne].
        -- rewrite <- E, lookup_alter_eq. by rewrite fmap_is_Some.
        -- by rewrite lookup_alter_ne.
      * by apply foldl_apply_line_is_Some.
    + intros id o' Ho'. simpl in Ho'.
      destruct (decide (id = order_id)) as [->|Hne].
      * rewrite lookup_alter_eq in Ho'.
        destruct (orders t !! order_id); [|done].
        injection Ho' as <-. simpl.
        apply elem_of_cons. right. apply elem_of_cons. by left.
      * rewrite lookup_alter_ne in Ho' by done. by apply (Hstatus id).
    + by apply foldl_apply_line_stock_nonneg.
Qed.

Lemma apply_line_monotone (t : Tables) (it : OrderItem) (book_id : uuid)
    (b : Book) :
  0 < item_qty it →
  books t !! book_id = Some b →
  ∃ b', books (apply_line t it) !! book_id = Some b' ∧
        book_stock b' ≤ book_stock b ∧ book_version b ≤ book_version b'.
Proof.
  intros Hqty Hb. unfold apply_line, decrement.
  destruct (short t it); simpl; [exists b; split; [done|lia]|].
  destruct (decide (book_id = item_product_id it)) as [->|Hne].
  - rewrite lookup_alter_eq, Hb. simpl. eexists. split; [done|]. simpl. lia.
  - rewrite lookup_alter_ne by done. exists b. split; [done|lia].
Qed.

Lemma foldl_apply_line_monotone (items : list OrderItem) (t : Tables)
    (book_id : uuid) (b : Book) :
  (∀ it, it ∈ items → 0 < item_qty it) →
  books t !! book_id = Some b →
  ∃ b', books (foldl apply_line t items) !! book_id = Some b' ∧
        book_stock b' ≤ book_stock b ∧ book_version b ≤ book_version b'.
Proof.
  revert t b. induction items as [|it items IH]; intros t b Hqty Hb; simpl.
  - exists b. split; [done|lia].
  - destruct (apply_line_monotone t it book_id b) as (b1 & Hb1 & ? & ?);
      [apply Hqty; by left | done |].
    destruct (IH (apply_line t it) b1) as (b2 & Hb2 & ? & ?);
      [intros it' Hit'; apply Hqty; by right | done |].
    exists b2. split; [done|lia].
Qed.

(** X9: confirmation only ever takes stock out.  When every stored line has
    a positive quantity, a call of [confirm_order], whatever its arguments
    and its outcome, leaves each book with a stock no higher and a version
    no lower than before. *)
Theorem confirm_order_stock_monotone (str : uuid → string)
    (isoformat : datetime → string) (t : Tables) (order_id : uuid)
    (idempotency_key : option string) (book_id : uuid) (b : Book) :
  order_items_qty_positive t →
  books t !! book_id = Some b →
  ∃ o t' b',
    confirm_order str isoformat order_id idempotency_key (begin t) =
      (o, begin t') ∧
    books t' !! book_id = Some b' ∧
    book_stock b' ≤ book_stock b ∧ book_version b ≤ book_version b'.
Proof.
  intros Hqty Hb.
  destruct (confirm_order_shape str isoformat t order_id idempotency_key)
    as (o & t' & Hrun & _ & _ & _ & Hcase).
  destruct Hcase as [(Hbooks & _)|(Hbooks & _)].
  - exists o, t', b. split; [done|]. rewrite Hbooks. split; [done|lia].
  - destruct (foldl_apply_line_monotone (items_of t order_id) t book_id b)
      as (b' & Hb' & ? & ?); [|done|].
    + intros it Hit. apply Hqty. unfold items_of in Hit.
      by apply list_elem_of_filter in Hit as [_ Hit].
    + exists o, t', b'. rewrite Hbooks. done.
Qed.

(** X10: a second key replays a confirmation without redoing it.  After a
    call that missed the idempotency store and succeeded, a call for the
    same order with another key that has no record returns the same
    response, changes no book and no order, and, when that key is a
    non-empty string, leaves the response stored under it. *)
Theorem confirm_order_other_key (str : uuid → string)
    (isoformat : datetime → string) (t : Tables) (order_id : uuid)
    (key1 key2 : option string) (response : JSONDict) (db1 : Session) :
  cached key1 t = None →
  confirm_order str isoformat order_id key1 (begin t) = (Return response, db1) →
  cached key2 (pending db1) = None →
  ∃ db2,
    confirm_order str isoformat order_id key2 db1 = (Return response, db2) ∧
    books (pending db2) = books (pending db1) ∧
    books (committed db2) = books (committed db1) ∧
    orders (committed db2) = orders (committed db1) ∧
    ∀ key, truthy key2 = Some key →
           select_idempotency key (committed db2) =
             Some (mkIdempotencyKey key order_id response).
Proof.
  intros Hmiss1 Hfirst Hmiss2.
  assert (∀ t1 (order : Order),
            db1 = remembered key1 order_id response (begin t1) →
            orders t1 !! order_id = Some order →
            order_status order ≠ "DRAFT" →
            response = response_of str isoformat order_id (order_status order)
                                   (order_created_at order) →
            ∃ db2,
              confirm_order str isoformat order_id key2 db1 =
                (Return response, db2) ∧
              books (pending db2) = books (pending db1) ∧
              books (committed db2) = books (committed db1) ∧
              orders (committed db2) = orders (committed db1) ∧
              ∀ key, truthy key2 = Some key →
                     select_idempotency key (committed db2) =
                       Some (mkIdempotencyKey key order_id response))
    as Hreplay.
  { intros t1 order Hdb1 Horder Hsettled Hresp.
    rewrite remembered_begin in Hdb1.
    destruct (remembered_tables_frame key1 order_id response t1)
      as (_ & Ho1 & _).
    subst db1. simpl in *.
    rewrite confirm_order_miss by done. simpl. rewrite Ho1, Horder.
    destruct (String.eqb_spec (order_status order) "DRAFT") as [E|_]; [done|].
    simpl. rewrite <- Hresp. rewrite remembered_begin.
    eexists. split; [reflexivity|]. simpl.
    destruct (remembered_tables_frame key2 order_id response
                (remembered_tables key1 order_id response t1))
      as (-> & -> & _).
    do 3 (split; [done|]).
    intros key Hkey. unfold remembered_tables at 1. rewrite Hkey.
    apply (insert_idempotency_select (mkIdempotencyKey key order_id response)).
    unfold cached in Hmiss2. by rewrite Hkey in Hmiss2. }
  rewrite confirm_order_miss in Hfirst by done. simpl in Hfirst.
  destruct (orders t !! order_id) as [order|] eqn:Horder; [|done].
  destruct (String.eqb_spec (order_status order) "DRAFT") as [Hdraft|Hsettled];
    simpl in Hfirst.
  - destruct (decrement_items_cases str (items_of t order_id) [] (begin t))
      as [[shortages Hloop]|(db' & Hloop & _)];
      rewrite Hloop in Hfirst; [|done].
    destruct shortages as [|s shortages]; [|done].
    simpl in Hfirst. injection Hfirst as <- <-.
    apply (Hreplay (with_status "CONFIRMED" order_id
                      (foldl apply_line t (items_of t order_id)))
                   (mkOrder "CONFIRMED" (order_created_at order)));
      [done | | done | done].
    simpl.
    destruct (foldl_apply_line_frame t (items_of t order_id)) as (-> & _ & _).
    by rewrite lookup_alter_eq, Horder.
  - injection Hfirst as <- <-.
    by apply (Hreplay t order).
Qed.

(** X11: an order without lines confirms at once.  A DRAFT order that has
    no line items, with no record found for the key, is CONFIRMED and its
    response returned; no book is changed. *)
Theorem confirm_order_no_lines (str : uuid → string)
    (isoformat : datetime → string) (t : Tables) (order_id : uuid)
    (idempotency_key : option string) (order : Order) :
  cached idempotency_key t = None →
  orders t !! order_id = Some order →
  order_status order = "DRAFT" →
  items_of t order_id = [] →
  let response :=
    response_of str isoformat order_id "CONFIRMED" (order_created_at order) in
  ∃ t',
    confirm_order str isoformat order_id idempotency_key (begin t) =
      (Return response, begin t') ∧
    books t' = books t ∧
    orders t' =
      <[order_id := mkOrder "CONFIRMED" (order_created_at order)]> (orders t).
Proof.
  intros Hmiss Horder Hdraft Hitems response.
  rewrite confirm_order_miss by done. simpl.
  rewrite Horder, Hdraft, Hitems. simpl.
  rewrite remembered_begin. eexists. split; [reflexivity|].
  match goal with
  | |- context [remembered_tables ?k ?i ?r ?u] =>
      destruct (remembered_tables_frame k i r u) as (-> & -> & _)
  end.
  simpl. split; [done|].
  apply map_eq. intros i. destruct (decide (i = order_id)) as [->|Hne].
  - by rewrite lookup_alter_eq, lookup_insert_eq, Horder.
  - by rewrite lookup_alter_ne, lookup_insert_ne.
Qed.

(** ** Creating a draft order *)

Lemma insert_order_item_Some (row : OrderItem) (t : Tables) :
  (item_order_id row, item_product_id row) ∉
    (λ it, (item_order_id it, item_product_id it)) <$> order_items t →
  is_Some (orders t !! item_order_id row) →
  is_Some (books t !! item_product_id row) →
  0 < item_qty row →
  item_qty row ≤ int4_max →
  insert_order_item row t = inr (add_rows [row] t).
Proof.
  intros Hkey Horder Hbook Hqty Hmax. unfold insert_order_item.
  rewrite in_int4_true by (unfold int4_min; lia). simpl.
  rewrite bool_decide_eq_false_2 by done.
  rewrite !bool_decide_eq_true_2 by done.
  by rewrite (proj2 (Z.ltb_lt _ _) Hqty).
Qed.

Lemma insert_order_item_inv (row : OrderItem) (t t' : Tables) :
  insert_order_item row t = inr t' →
  ((item_order_id row, item_product_id row) ∉
     ((λ it, (item_order_id it, item_product_id it)) <$> order_items t)) ∧
  is_Some (orders t !! item_order_id row) ∧
  is_Some (books t !! item_product_id row) ∧
  0 < item_qty row ∧
  item_qty row ≤ int4_max ∧
  t' = add_rows [row] t.
Proof.
  unfold insert_order_item, in_int4. intros H.
  destruct (Z.leb_spec int4_min (item_qty row)) as [_|_]; [|done].
  destruct (Z.leb_spec (item_qty row) int4_max) as [Hmax|_]; [|done].
  simpl in H.
  case_bool_decide as Hkey; [done|].
  case_bool_decide as Horder; [|done].
  case_bool_decide as Hbook; [|done].
  destruct (Z.ltb_spec 0 (item_qty row)) as [Hqty|_]; [|done].
  simpl in H. by injection H as <-.
Qed.

(** The only [DataError] of the INSERT is a quantity out of range. *)
Lemma insert_order_item_DataError (row : OrderItem) (t : Tables) :
  insert_order_item row t = inl DataError → in_int4 (item_qty row) = false.
Proof.
  unfold insert_order_item.
  destruct (in_int4 (item_qty row)); [|done]. simpl.
  destruct (bool_decide _); [done|]. by destruct (_ && _).
Qed.

Lemma insert_order_items_DataError (id : uuid) (items : list OrderItemCreate) :
  ∀ t, insert_order_items id items t = inl DataError →
       ∃ it, it ∈ items ∧ in_int4 (create_qty it) = false.
Proof.
  induction items as [|it items IH]; intros t; simpl; [done|].
  destruct (insert_order_item _ t) as [x|t1] eqn:Hrow.
  - intros [= ->]. apply insert_order_item_DataError in Hrow.
    exists it. split; [by left | done].
  - intros Hrest. destruct (IH t1 Hrest) as (it' & Hit' & Hbig).
    exists it'. split; [by right | done].
Qed.

Lemma add_rows_app (rows rows' : list OrderItem) (t : Tables) :
  add_rows rows' (add_rows rows t) = add_rows (rows ++ rows') t.
Proof. unfold add_rows. simpl. by rewrite <- app_assoc. Qed.

(** The loop of INSERTs goes through exactly when the lines are on distinct,
    existing products, with positive quantities that fit the column, none
    of them already a row of this order; it then appends one row per line,
    in order. *)
Lemma insert_order_items_iff (id : uuid) (items : list OrderItemCreate) :
  ∀ t t',
    is_Some (orders t !! id) →
    (insert_order_items id items t = inr t' ↔
     (NoDup (create_product_id <$> items) ∧
      (∀ it, it ∈ items →
             is_Some (books t !! create_product_id it) ∧
             (0 < create_qty it ∧ create_qty it ≤ int4_max) ∧
             (id, create_product_id it) ∉
               (λ r, (item_order_id r, item_product_id r)) <$> order_items t) ∧
      t' = add_rows
             ((λ it, mkOrderItem id (create_product_id it) (create_qty it))
                <$> items) t)).
Proof.
  induction items as [|it items IH]; intros t t' Horder; simpl.
  - split.
    + intros [= <-]. split; [constructor|]. split.
      * intros it Hit. by apply elem_of_nil in Hit.
      * unfold add_rows. rewrite app_nil_r. by destruct t.
    + intros (_ & _ & ->). unfold add_rows. rewrite app_nil_r. by destruct t.
  - set (row := mkOrderItem id (create_product_id it) (create_qty it)).
    split.
    + destruct (insert_order_item row t) as [x|t1] eqn:Hrow; [done|].
      apply insert_order_item_inv in Hrow
        as (Hkey & _ & Hbook & Hqty & Hmax & ->).
      intros Hrest. apply IH in Hrest as (Hnd & Hall & ->); [|done].
      simpl in *. split; [|split].
      * apply NoDup_cons. split; [|done]. intros Hin.
        apply list_elem_of_fmap in Hin as (it' & Hpid & Hit').
        destruct (Hall it' Hit') as (_ & _ & Hfresh). apply Hfresh.
        rewrite fmap_app. apply elem_of_app. right. simpl.
        rewrite <- Hpid. by apply list_elem_of_singleton.
      * intros it' Hit'. apply elem_of_cons in Hit' as [->|Hit']; [done|].
        destruct (Hall it' Hit') as (? & [? ?] & Hfresh).
        repeat split; try done.
        intros Hin. apply Hfresh. rewrite fmap_app. apply elem_of_app. by left.
      * by rewrite add_rows_app.
    + intros (Hnd & Hall & ->). apply NoDup_cons in Hnd as [Hnotin Hnd].
      destruct (Hall it) as (Hbook & [Hqty Hmax] & Hfresh); [by left|].
      rewrite (insert_order_item_Some row t) by done.
      apply IH; [done|]. split; [done|]. split; [|by rewrite add_rows_app].
      intros it' Hit'.
      destruct (Hall it') as (? & [? ?] & Hfresh'); [by right|].
      repeat split; try done. simpl. rewrite fmap_app.
      intros Hin. apply elem_of_app in Hin as [Hin|Hin]; [done|].
      simpl in Hin. apply list_elem_of_singleton in Hin. injection Hin as Hpid.
      apply Hnotin. rewrite <- Hpid. by apply list_elem_of_fmap_2.
Qed.

(** Under the foreign key to [orders], an id that names no order names no
    row either. *)
Lemma order_items_fk_fresh (t : Tables) (id product_id : uuid) :
  order_items_fk t →
  orders t !! id = None →
  (id, product_id) ∉
    (λ r, (item_order_id r, item_product_id r)) <$> order_items t.
Proof.
  intros Hfk Hnone Hin. apply list_elem_of_fmap in Hin as (r & Hkey & Hr).
  injection Hkey as Hid _. destruct (Hfk r Hr) as [[o Ho] _]. congruence.
Qed.

Lemma items_of_created (id : uuid) (created_at : datetime) (data : OrderCreate)
    (t : Tables) :
  order_items_fk t →
  orders t !! id = None →
  items_of (created id created_at data t) id = rows_of id data.
Proof.
  intros Hfk Hnone. unfold items_of, created, add_rows, rows_of. simpl.
  rewrite filter_app.
  assert (filter (λ it, item_order_id it = id) (order_items t) = []) as ->.
  { apply elem_of_nil_inv. intros it Hit.
    apply list_elem_of_filter in Hit as [Hid Hit].
    destruct (Hfk it Hit) as [[o Ho] _]. congruence. }
  simpl. induction (create_items data) as [|it items IH]; [done|].
  rewrite fmap_cons, filter_cons_True by done. by rewrite IH.
Qed.

(** [create_order] from a session with nothing pending, by the INSERTs. *)
Lemma create_order_run (id : uuid) (created_at : datetime)
    (data : OrderCreate) (t : Tables) :
  create_order id created_at data (begin t) =
    match orders t !! id with
    | Some _ =>
        (Raise (mkHTTPException 400 (JStr "Referenced resource not found")),
         begin t)
    | None =>
        match insert_order_items id (create_items data)
                (set_orders (<[id := mkOrder "DRAFT" created_at]> (orders t)) t)
        with
        | inl IntegrityError =>
            (Raise (mkHTTPException 400 (JStr "Referenced resource not found")),
             begin t)
        | inl DataError => (Fault DataError, begin t)
        | inr t2 =>
            (Return {| read_id := id; read_status := "DRAFT";
                       read_created_at := created_at;
                       read_items :=
                         (λ it, mkOrderItemRead (item_product_id it)
                                                (item_qty it))
                           <$> items_of t2 id |},
             begin t2)
        end
    end.
Proof.
  unfold create_order, try_except, bind, create_draft, insert_order. simpl.
  destruct (orders t !! id) as [o|]; [done|].
  by destruct (insert_order_items id (create_items data) _) as [[|]|t2].
Qed.

(** The ways a call can go, from a session with nothing pending: the draft
    is stored, or it is refused with the 400 of the [IntegrityError] clause,
    or a quantity that does not fit the column raises a [DataError] that no
    clause catches. *)
Lemma create_order_cases (id : uuid) (created_at : datetime)
    (data : OrderCreate) (t : Tables) :
  order_items_fk t →
  (¬ insertable id data t ∧
   ∃ o, create_order id created_at data (begin t) = (o, begin t) ∧
        (o = Raise (mkHTTPException 400 (JStr "Referenced resource not found")) ∨
         (o = Fault DataError ∧
          ∃ it, it ∈ create_items data ∧ in_int4 (create_qty it) = false))) ∨
  (insertable id data t ∧
   create_order id created_at data (begin t) =
     (Return (created_read id created_at data),
      begin (created id created_at data t))).
Proof.
  intros Hfk. rewrite create_order_run.
  destruct (orders t !! id) as [o|] eqn:Hid.
  { left. split; [intros (Hnone & _); congruence|].
    eexists. split; [reflexivity | by left]. }
  set (t1 := set_orders (<[id := mkOrder "DRAFT" created_at]> (orders t)) t).
  assert (is_Some (orders t1 !! id)) as Hnew.
  { simpl. rewrite lookup_insert_eq. eauto. }
  destruct (insert_order_items id (create_items data) t1) as [x|t2] eqn:Hrows.
  - left. split.
    + intros (_ & Hnd & Hall).
      assert (∃ t2, insert_order_items id (create_items data) t1 = inr t2)
        as [t2 Ht2]; [|congruence].
      eexists. apply (insert_order_items_iff id _ t1 _ Hnew).
      split; [done|]. split; [|done]. intros it Hit.
      destruct (Hall it Hit) as (? & ? & ?). repeat split; try done.
      by apply (order_items_fk_fresh t).
    + destruct x.
      * eexists. split; [reflexivity | by left].
      * eexists. split; [reflexivity|]. right. split; [done|].
        by apply (insert_order_items_DataError id _ t1).
  - right. apply (insert_order_items_iff id _ t1 t2 Hnew) in Hrows
      as (Hnd & Hall & ->).
    assert (insertable id data t) as Hins.
    { split; [done|]. split; [done|]. intros it Hit.
      destruct (Hall it Hit) as (? & [? ?] & _). done. }
    split; [done|].
    fold (rows_of id data).
    change (add_rows (rows_of id data) t1) with (created id created_at data t).
    rewrite (items_of_created id created_at data t Hfk Hid).
    unfold created_read, rows_of. f_equal. f_equal.
    rewrite <- list_fmap_compose. done.
Qed.

(** X12: when the id drawn is unused and the lines are on distinct, existing
    products with positive quantities that fit the 32-bit [qty] column,
    [create_order] commits one DRAFT order and one row per line, in the
    order given, touches nothing else, and returns the order with exactly
    those lines (an empty list of lines included). *)
Theorem create_order_success (id : uuid) (created_at : datetime)
    (data : OrderCreate) (t : Tables) :
  order_items_fk t →
  insertable id data t →
  create_order id created_at data (begin t) =
    (Return (created_read id created_at data),
     begin (created id created_at data t)).
Proof.
  intros Hfk Hins.
  destruct (create_order_cases id created_at data t Hfk) as [[Hno _]|[_ Hrun]];
    [contradiction | done].
Qed.

(** X13: when every quantity fits the 32-bit [qty] column, in every other
    case - a line on a product that does not exist, a product that occurs
    twice, a quantity that is not positive, an id already taken -
    [create_order] raises 400 with the one message "Referenced resource not
    found", and nothing of the order is kept: the session is as it
    started. *)
Theorem create_order_rejected (id : uuid) (created_at : datetime)
    (data : OrderCreate) (t : Tables) :
  order_items_fk t →
  (∀ it, it ∈ create_items data → int4_min ≤ create_qty it ≤ int4_max) →
  ¬ insertable id data t →
  create_order id created_at data (begin t) =
    (Raise (mkHTTPException 400 (JStr "Referenced resource not found")),
     begin t).
Proof.
  intros Hfk Hrange Hno.
  destruct (create_order_cases id created_at data t Hfk)
    as [(_ & o & Hrun & [->|[_ (it & Hit & Hbig)]])|[Hins _]];
    [done | | contradiction].
  rewrite in_int4_true in Hbig; [done | by apply Hrange].
Qed.

(** X14: [create_order] keeps every constraint the models declare on the
    order tables, whatever it is given and however it ends. *)
Theorem create_order_constraints (id : uuid) (created_at : datetime)
    (data : OrderCreate) (t : Tables) :
  constraints t →
  ∃ o t',
    create_order id created_at data (begin t) = (o, begin t') ∧
    constraints t'.
Proof.
  intros Hc. pose proof Hc as (Hpk & Hfk & Hqty & Hstatus & Hnn & Hidem).
  destruct (create_order_cases id created_at data t Hfk)
    as [(_ & o & Hrun & _)|[(Hnone & Hnd & Hall) Hrun]].
  { by exists o, t. }
  eexists _, _. split; [exact Hrun|].
  unfold constraints, order_items_pk, order_items_fk, order_items_qty_positive,
    orders_status_check, books_stock_nonneg, idempotency_keys_pk in *.
  unfold created, add_rows, rows_of. simpl.
  split; [|split; [|split; [|split; [|split; [done|done]]]]].
  - rewrite fmap_app. apply NoDup_app. split; [done|]. split.
    + intros key Hkey Hkey'.
      apply list_elem_of_fmap in Hkey' as (r & -> & Hr).
      apply list_elem_of_fmap in Hr as (it & -> & Hit). simpl in Hkey.
      by apply (order_items_fk_fresh t id (create_product_id it)).
    + rewrite <- list_fmap_compose.
      apply (NoDup_fmap_1 snd). rewrite <- list_fmap_compose. done.
  - intros r Hr. apply elem_of_app in Hr as [Hr|Hr].
    + destruct (Hfk r Hr) as [Ho Hb]. split; [|done].
      destruct (decide (item_order_id r = id)) as [E|Hne].
      * rewrite E, lookup_insert_eq. eauto.
      * by rewrite lookup_insert_ne.
    + apply list_elem_of_fmap in Hr as (it & -> & Hit). simpl.
      rewrite lookup_insert_eq. split; [eauto|]. by apply Hall.
  - intros r Hr. apply elem_of_app in Hr as [Hr|Hr]; [by apply Hqty|].
    apply list_elem_of_fmap in Hr as (it & -> & Hit). simpl. by apply Hall.
  - intros id' o Ho. destruct (decide (id' = id)) as [->|Hne].
    + rewrite lookup_insert_eq in Ho. injection Ho as <-. simpl.
      apply elem_of_cons. by left.
    + rewrite lookup_insert_ne in Ho by done. by apply (Hstatus id').
Qed.

(** X15: a draft just created can be confirmed.  If, on top of what
    [create_order] asks, each line asks for no more than the stock of its
    product and its decrement stays within the 32-bit range of the stock
    and version columns, then creating the order and confirming it (without
    a key) succeeds, answers CONFIRMED with the creation time given at
    creation, and leaves each product of the order with its stock less the
    quantity of its line and its version one higher. *)
Theorem create_then_confirm (str : uuid → string)
    (isoformat : datetime → string) (id : uuid) (created_at : datetime)
    (data : OrderCreate) (t : Tables) :
  order_items_fk t →
  insertable id data t →
  (∀ it, it ∈ create_items data →
         ∃ b, books t !! create_product_id it = Some b ∧
              create_qty it ≤ book_stock b ∧
              book_stock b - create_qty it ≤ int4_max ∧
              int4_min ≤ book_version b + 1 ≤ int4_max) →
  ∃ db1 t2,
    create_order id created_at data (begin t) =
      (Return (created_read id created_at data), db1) ∧
    confirm_order str isoformat id None db1 =
      (Return (response_of str isoformat id "CONFIRMED" created_at),
       begin t2) ∧
    orders t2 !! id = Some (mkOrder "CONFIRMED" created_at) ∧
    ∀ it b, it ∈ create_items data →
            books t !! create_product_id it = Some b →
            books t2 !! create_product_id it =
              Some (mkBook (book_stock b - create_qty it) (book_version b + 1)).
Proof.
  intros Hfk Hins Hok. pose proof Hins as (Hnone & Hnd & Hall).
  destruct (create_order_cases id created_at data t Hfk) as [[Hno _]|[_ Hrun]];
    [contradiction|].
  set (tc := created id created_at data t) in *.
  assert (items_of tc id = rows_of id data) as Hitems
    by by apply items_of_created.
  assert (NoDup (item_product_id <$> rows_of id data)) as Hnd'.
  { unfold rows_of. by rewrite <- list_fmap_compose. }
  assert (∀ r, r ∈ rows_of id data → short tc r = false) as Hnone'.
  { intros r Hr. apply list_elem_of_fmap in Hr as (it & -> & Hit).
    destruct (Hok it Hit) as (b & Hb & Hq & _).
    unfold short. simpl. rewrite Hb. apply Z.ltb_ge. lia. }
  assert (∀ r, r ∈ rows_of id data → fits tc r = true) as Hfit.
  { intros r Hr. apply list_elem_of_fmap in Hr as (it & -> & Hit).
    destruct (Hok it Hit) as (b & Hb & Hq & Hs & Hv).
    by apply (fits_true tc _ b). }
  exists (begin tc). eexists. split; [exact Hrun|].
  rewrite confirm_order_miss by done. simpl.
  rewrite lookup_insert_eq. simpl.
  fold (items_of tc id). rewrite Hitems.
  rewrite decrement_items_spec by done. simpl.
  rewrite (proj2 (shortages_of_nil str tc _) Hnone').
  rewrite foldl_apply_line_all by done.
  split; [reflexivity|]. simpl. split.
  - by rewrite lookup_alter_eq, lookup_insert_eq.
  - intros it b Hit Hb.
    pose proof (foldl_decrement_line (rows_of id data) (books t)
                  (mkOrderItem id (create_product_id it) (create_qty it))
                  Hnd') as Hline.
    simpl in Hline. rewrite Hline, Hb; [done|].
    unfold rows_of. apply list_elem_of_fmap. by exists it.
Qed.

(** ** Pagination *)

(** X16: whatever is asked for, the limit returned is at least 1 and at
    most [max_limit] or 1, whichever is larger, and the offset returned is
    not negative.  (With a [max_limit] below 1 the limit returned is 1,
    above [max_limit].) *)
Theorem clamp_pagination_bounds (limit offset max_limit : Z) :
  1 ≤ (clamp_pagination limit offset max_limit).1 ∧
  (clamp_pagination limit offset max_limit).1 ≤ Z.max 1 max_limit ∧
  0 ≤ (clamp_pagination limit offset max_limit).2.
Proof. unfold clamp_pagination. simpl. lia. Qed.

(** X17: the values that pass through unchanged are exactly the limits
    from 1 to [max_limit] (and the limit 1, whatever [max_limit] is) with
    offsets from 0; and clamping twice is clamping once. *)
Theorem clamp_pagination_fixed (limit offset max_limit : Z) :
  (clamp_pagination limit offset max_limit = (limit, offset) ↔
   1 ≤ limit ∧ (limit ≤ max_limit ∨ limit = 1) ∧ 0 ≤ offset) ∧
  clamp_pagination (clamp_pagination limit offset max_limit).1
                   (clamp_pagination limit offset max_limit).2 max_limit =
    clamp_pagination limit offset max_limit.
Proof.
  unfold clamp_pagination. simpl. split.
  - split.
    + intros [= Hl Ho]. lia.
    + intros (? & ? & ?). f_equal; lia.
  - f_equal; lia.
Qed.

(** ** Tenant names *)

Lemma tenant_tail_iff (s : string) :
  tenant_tail s = true ↔
  ∃ body, (s = body ∨ s = body +:+ String newline "") ∧
          ∀ c, c ∈ String.list_ascii_of_string body → tenant_char c = true.
Proof.
  induction s as [|c s IH].
  - split; [|done]. intros _. exists "". split; [by left|].
    intros c Hc. by apply elem_of_nil in Hc.
  - destruct s as [|c' s'].
    + simpl. rewrite orb_true_iff. split.
      * intros [Hc|Hc].
        -- exists (String c ""). split; [by left|]. simpl.
           intros x Hx. apply list_elem_of_singleton in Hx. by subst x.
        -- apply Ascii.eqb_eq in Hc. subst c. exists "". split; [by right|].
           intros x Hx. by apply elem_of_nil in Hx.
      * intros (body & [Hs|Hs] & Hall).
        -- left. apply Hall. rewrite <- Hs. simpl. by left.
        -- destruct body as [|x body]; simpl in Hs.
           ++ right. injection Hs as Hs. by apply Ascii.eqb_eq.
           ++ injection Hs as _ Hs. by destruct body.
    + change (tenant_tail (String c (String c' s')))
        with (tenant_char c && tenant_tail (String c' s')).
      rewrite andb_true_iff, IH. split.
      * intros (Hc & body & Hs & Hall). exists (String c body). split.
        -- destruct Hs as [Hs|Hs]; rewrite Hs; [by left | by right].
        -- simpl. intros x Hx. apply elem_of_cons in Hx as [Hx|Hx];
             [by subst x | by apply Hall].
      * intros (body & Hs & Hall). destruct body as [|x body].
        { destruct Hs as [Hs|Hs]; simpl in Hs; discriminate Hs. }
        assert (c = x) as Hx.
        { destruct Hs as [Hs|Hs]; simpl in Hs; by injection Hs. }
        subst x. split; [apply Hall; simpl; by left|].
        exists body. split.
        -- destruct Hs as [Hs|Hs]; simpl in Hs; injection Hs as Hs; auto.
        -- intros y Hy. apply Hall. simpl. by right.
Qed.

Lemma length_append (s1 s2 : string) :
  String.length (s1 +:+ s2) = (String.length s1 + String.length s2)%nat.
Proof. induction s1 as [|c s1 IH]; simpl; [done | by rewrite IH]. Qed.

Lemma bootstrap_tenant_checks_iff (tenant : string) :
  bootstrap_tenant_checks tenant = Return tt ↔
  ∃ body, (tenant = body ∨ tenant = body +:+ String newline "") ∧
          body ≠ "" ∧
          (∀ c, c ∈ String.list_ascii_of_string body → tenant_char c = true) ∧
          (String.length tenant ≤ 63)%nat.
Proof.
  unfold bootstrap_tenant_checks, tenant_name_match.
  destruct tenant as [|c s].
  { simpl. split; [done|]. intros (body & [Hs|Hs] & Hne & _); [by subst body|].
    by destruct body. }
  change (String.eqb (String c s) "") with false. simpl orb.
  destruct (tenant_char c) eqn:Hc; simpl negb.
  - destruct (tenant_tail s) eqn:Hs; simpl negb; cbv iota.
    + apply tenant_tail_iff in Hs as (body & Hs & Hall).
      destruct (Z.ltb_spec 63 (Z.of_nat (S (String.length s))))
        as [Hlong|Hlen].
      * split; [done|]. intros (_ & _ & _ & _ & Hlen). simpl in Hlen. lia.
      * split; [|done]. intros _. exists (String c body). split.
        { destruct Hs as [Hs|Hs]; rewrite Hs; [by left | by right]. }
        split; [done|]. split; [|simpl; lia].
        simpl. intros x Hx. apply elem_of_cons in Hx as [Hx|Hx];
          [by subst x | by apply Hall].
    + split; [done|]. intros (body & Ht & Hne & Hall & _).
      destruct body as [|x body]; [done|].
      assert (tenant_tail s = true) as Hs'; [|congruence].
      apply tenant_tail_iff. exists body. split.
      * destruct Ht as [Ht|Ht]; simpl in Ht; injection Ht as _ Ht; auto.
      * intros y Hy. apply Hall. simpl. by right.
  - split; [done|]. intros (body & Ht & Hne & Hall & _).
    destruct body as [|x body]; [done|].
    assert (c = x) as Hx.
    { destruct Ht as [Ht|Ht]; simpl in Ht; by injection Ht. }
    subst x. rewrite Hall in Hc; [done|]. simpl. by left.
Qed.

(** X18: the names [bootstrap_tenant] lets through to the DDL are exactly
    the strings of 1 to 63 characters made of at least one character of
    [a-zA-Z0-9_-], followed by nothing or by one newline (Python's [$] also
    matches before a final newline, so a name such as ["acme\n"] passes);
    every other name raises 400. *)
Theorem bootstrap_tenant_accepts (tenant : string) :
  (bootstrap_tenant_checks tenant = Return tt ↔
   ∃ body, (tenant = body ∨ tenant = body +:+ String newline "") ∧
           body ≠ "" ∧
           (∀ c, c ∈ String.list_ascii_of_string body → tenant_char c = true) ∧
           (String.length tenant ≤ 63)%nat) ∧
  (bootstrap_tenant_checks tenant ≠ Return tt →
   ∃ e, bootstrap_tenant_checks tenant = Raise e ∧ status_code e = 400).
Proof.
  split; [apply bootstrap_tenant_checks_iff|].
  unfold bootstrap_tenant_checks.
  destruct (negb (tenant_name_match tenant)); [eauto|].
  destruct (String.eqb tenant "" || _); [eauto | done].
Qed.

(** X19: no accepted name contains a double quote, the character that
    would end the quoted identifier the name is put into. *)
Theorem bootstrap_tenant_no_quote (tenant : string) :
  bootstrap_tenant_checks tenant = Return tt →
  Ascii.ascii_of_nat 34 ∉ String.list_ascii_of_string tenant.
Proof.
  intros Hok. apply bootstrap_tenant_checks_iff in Hok
    as (body & Ht & _ & Hall & _).
  assert (Ascii.ascii_of_nat 34 ∉ String.list_ascii_of_string body) as Hbody.
  { intros Hin. apply Hall in Hin. vm_compute in Hin. discriminate Hin. }
  destruct Ht as [Ht|Ht]; subst tenant; [done|].
  clear Hall. induction body as [|c body IH]; simpl in *.
  - intros Hin. apply list_elem_of_singleton in Hin.
    vm_compute in Hin. discriminate Hin.
  - intros Hin. apply elem_of_cons in Hin as [Hin|Hin].
    + apply Hbody. rewrite <- Hin. by left.
    + apply IH; [|done]. intros Hin'. apply Hbody. by right.
Qed.

(** ** Concrete scenarios, continued *)

Ltac in_list H :=
  repeat (apply elem_of_cons in H as [H|H]; [subst|]);
  [.. | by apply elem_of_nil in H].

Lemma store_fk : order_items_fk store.
Proof.
  intros it Hit. unfold store in Hit. simpl in Hit.
  in_list Hit; split; vm_compute; eauto.
Defined.

Lemma store_constraints : constraints store.
Proof.
  split; [exact store_pk|]. split; [exact store_fk|].
  split; [|split; [|split]].
  - intros it Hit. unfold store in Hit. simpl in Hit. in_list Hit; simpl; lia.
  - apply (bool_decide_unpack
             (map_Forall
                (λ (_ : uuid) o,
                   order_status o ∈ ["DRAFT"; "CONFIRMED"; "CANCELLED"])
                (orders store))).
    vm_compute. exact I.
  - apply (bool_decide_unpack
             (map_Forall (λ (_ : uuid) b, 0 ≤ book_stock b) (books store))).
    vm_compute. exact I.
  - constructor.
Defined.

Lemma store_qty_positive : order_items_qty_positive store.
Proof. apply store_constraints. Defined.

Lemma store_stock_nonneg : books_stock_nonneg store.
Proof. apply store_constraints. Defined.

Lemma try_decrement_stock_nonneg_witness :
  books_stock_nonneg
    (pending (try_decrement_book_optimistic 1 3 (begin store)).2).
Proof.
  apply (try_decrement_stock_nonneg (begin store) 1 3). exact store_stock_nonneg.
Defined.


Lemma try_decrement_overflow_witness :
  try_decrement_book_optimistic 1 3 (begin store_max) =
    (Fault DataError, begin store_max).
Proof.
  apply (try_decrement_overflow (begin store_max) 1 5 int4_max 3);
    [reflexivity | lia | unfold int4_max; lia].
Defined.

Lemma save_idempotency_other_key_witness :
  (get_idempotency "k1" (save_idempotency "k2" 12 [] (begin store_k1)).2).1 =
  (get_idempotency "k1" (begin store_k1)).1.
Proof.
  apply (save_idempotency_other_key (begin store_k1) "k2" "k1" 12 []).
  discriminate.
Defined.

Lemma confirm_order_not_found_witness :
  confirm_order str isoformat 99 (Some "k9") (begin store_k1) =
    (Raise (mkHTTPException 404 (JStr "order not found")), begin store_k1).
Proof.
  apply (confirm_order_not_found str isoformat (begin store_k1) 99 (Some "k9"));
    reflexivity.
Defined.

Lemma confirm_order_raise_unchanged_witness :
  ∃ e, status_code e = 409 ∧
       confirm_order str isoformat 13 None (begin store) = (Raise e, begin store).
Proof.
  destruct (confirm_order str isoformat 13 None (begin store))
    as [[r|e|x] db'] eqn:Hrun;
    [vm_compute in Hrun; discriminate Hrun | |
     vm_compute in Hrun; discriminate Hrun].
  destruct (confirm_order_raise_unchanged str isoformat store 13 None e db' Hrun)
    as (-> & [[_ Hnone]|[[Hcode _]|[-> _]]]);
    [vm_compute in Hnone; discriminate Hnone | |
     vm_compute in Hrun; discriminate Hrun].
  by exists e.
Defined.

Lemma confirm_order_overflow_witness :
  confirm_order_traced str isoformat 12 (Some "k1") (begin store_max) =
    (Raise (mkHTTPException 500 (JStr "confirm failed")), begin store_max, []).
Proof.
  apply (confirm_order_overflow str isoformat store_max 12 (Some "k1")
           (mkOrder "DRAFT" 1002)).
  - exact store_pk.
  - reflexivity.
  - reflexivity.
  - reflexivity.
  - exists (mkOrderItem 12 1 3), (mkBook 5 int4_max).
    split; [|split; [reflexivity|]; unfold int4_max; simpl; lia].
    apply list_elem_of_filter. split; [reflexivity|].
    do 2 (apply elem_of_cons; right). apply elem_of_cons. by left.
Defined.

Lemma confirm_order_constraints_witness :
  ∃ o t',
    confirm_order str isoformat 12 (Some "k1") (begin store) = (o, begin t') ∧
    constraints t'.
Proof.
  apply (confirm_order_constraints str isoformat store 12 (Some "k1")).
  exact store_constraints.
Defined.

Lemma confirm_order_stock_monotone_witness :
  ∃ o t' b',
    confirm_order str isoformat 12 None (begin store) = (o, begin t') ∧
    books t' !! 1%N = Some b' ∧ book_stock b' ≤ 5 ∧ 1 ≤ book_version b'.
Proof.
  apply (confirm_order_stock_monotone str isoformat store 12 None 1 (mkBook 5 1));
    [exact store_qty_positive | reflexivity].
Defined.

Lemma confirm_order_other_key_witness :
  let db1 := (confirm_order str isoformat 12 (Some "k1") (begin store)).2 in
  ∃ db2,
    confirm_order str isoformat 12 (Some "k2") db1 =
      (Return [("id", JStr "12"); ("status", JStr "CONFIRMED");
               ("created_at", JStr "1002")], db2) ∧
    books (committed db2) !! 1%N = Some (mkBook 2 2).
Proof.
  intros db1.
  destruct (confirm_order_other_key str isoformat store 12 (Some "k1")
              (Some "k2")
              [("id", JStr "12"); ("status", JStr "CONFIRMED");
               ("created_at", JStr "1002")] db1)
    as (db2 & Hrun & _ & Hbooks & _).
  - reflexivity.
  - vm_compute. reflexivity.
  - vm_compute. reflexivity.
  - exists db2. split; [exact Hrun|]. rewrite Hbooks. reflexivity.
Defined.

Lemma confirm_order_no_lines_witness :
  ∃ t',
    confirm_order str isoformat 15 None (begin store_no_lines) =
      (Return [("id", JStr "15"); ("status", JStr "CONFIRMED");
               ("created_at", JStr "1005")], begin t') ∧
    books t' = books store_no_lines.
Proof.
  destruct (confirm_order_no_lines str isoformat store_no_lines 15 None
              (mkOrder "DRAFT" 1005))
    as (t' & Hrun & Hbooks & _); try reflexivity.
  exists t'. by split.
Defined.

Lemma draft_insertable : insertable 20 draft store.
Proof.
  split; [reflexivity|]. split.
  - apply (bool_decide_unpack _). vm_compute. exact I.
  - intros it Hit. unfold draft in Hit. simpl in Hit.
    in_list Hit; (split; [vm_compute; eauto | unfold int4_max; simpl; lia]).
Defined.

Lemma create_order_success_witness :
  create_order 20 2000 draft (begin store) =
    (Return (mkOrderRead 20 "DRAFT" 2000
               [mkOrderItemRead 1 2; mkOrderItemRead 2 1]),
     begin (created 20 2000 draft store)).
Proof.
  apply (create_order_success 20 2000 draft store);
    [exact store_fk | exact draft_insertable].
Defined.

Lemma create_order_rejected_witness :
  create_order 20 2000 draft_unknown (begin store) =
    (Raise (mkHTTPException 400 (JStr "Referenced resource not found")),
     begin store).
Proof.
  apply (create_order_rejected 20 2000 draft_unknown store); [exact store_fk| |].
  - intros it Hit. unfold draft_unknown in Hit. simpl in Hit.
    in_list Hit; unfold int4_min, int4_max; simpl; lia.
  - intros (_ & _ & Hall).
    destruct (Hall (mkOrderItemCreate 7 1)) as [[b Hb] _].
    + apply elem_of_cons. right. apply elem_of_cons. by left.
    + vm_compute in Hb. discriminate Hb.
Defined.

(** A quantity of 2^31 passes the validator of the schema and does not fit
    the column: the [DataError] leaves [create_order] uncaught, and nothing
    is stored. *)
Example create_order_too_many :
  create_order 20 2000 draft_too_many (begin store) =
    (Fault DataError, begin store).
Proof. reflexivity. Qed.

Lemma create_order_constraints_witness :
  ∃ o t',
    create_order 20 2000 draft (begin store) = (o, begin t') ∧ constraints t'.
Proof.
  apply (create_order_constraints 20 2000 draft store). exact store_constraints.
Defined.

Lemma create_then_confirm_witness :
  ∃ db1 t2,
    create_order 20 2000 draft_in_stock (begin store) =
      (Return (mkOrderRead 20 "DRAFT" 2000 [mkOrderItemRead 1 2]), db1) ∧
    confirm_order str isoformat 20 None db1 =
      (Return [("id", JStr "20"); ("status", JStr "CONFIRMED");
               ("created_at", JStr "2000")], begin t2) ∧
    books t2 !! 1%N = Some (mkBook 3 2).
Proof.
  destruct (create_then_confirm str isoformat 20 2000 draft_in_stock store)
    as (db1 & t2 & Hcreate & Hconfirm & _ & Hbooks).
  - exact store_fk.
  - split; [reflexivity|]. split.
    + apply (bool_decide_unpack _). vm_compute. exact I.
    + intros it Hit. unfold draft_in_stock in Hit. simpl in Hit.
      in_list Hit; (split; [vm_compute; eauto | unfold int4_max; simpl; lia]).
  - intros it Hit. unfold draft_in_stock in Hit. simpl in Hit.
    in_list Hit. exists (mkBook 5 1). split; [reflexivity|].
    unfold int4_min, int4_max. simpl. lia.
  - exists db1, t2. split; [exact Hcreate|]. split; [exact Hconfirm|].
    apply (Hbooks (mkOrderItemCreate 1 2) (mkBook 5 1)); [|reflexivity].
    by apply list_elem_of_singleton.
Defined.

Lemma bootstrap_tenant_no_quote_witness :
  Ascii.ascii_of_nat 34 ∉ String.list_ascii_of_string "acme-books_1".
Proof.
  apply (bootstrap_tenant_no_quote "acme-books_1"). reflexivity.
Defined.

(** A name that ends in a newline goes through; one with a space, the empty
    name and a name of 64 characters do not. *)
Example bootstrap_tenant_examples :
  bootstrap_tenant_checks ("acme" +:+ String newline "") = Return tt ∧
  bootstrap_tenant_checks "acme books" =
    Raise (mkHTTPException 400 (JStr "Invalid tenant name")) ∧
  bootstrap_tenant_checks "" =
    Raise (mkHTTPException 400 (JStr "Invalid tenant name")) ∧
  bootstrap_tenant_checks
    "aaaaaaaaaaaaaaaaaaaaaaaaaaaaaaaaaaaaaaaaaaaaaaaaaaaaaaaaaaaaaaaa" =
    Raise (mkHTTPException 400 (JStr "Tenant name must be 1-63 characters")).
Proof. repeat split. Qed.

